(** * AutogenWrapper: the orchestration core of ae/core/autogen_wrapper.py

    A shallow embedding of [AutogenWrapper] (agent registry construction,
    the nested-chat registration, the termination lambdas and
    [process_command]) together with the properties its design document
    states about it.

    Conventions.
    - A Python [str] that the code only compares, concatenates or scans
      for ASCII delimiters (role names, prompts, templates, environment
      variables) is a [string].  The content of a message, whose characters
      the termination lambdas look at, is a [pystr]: the sequence of its
      Unicode code points.  [str.rstrip] and [str.upper] follow the Unicode
      character database (version 14.0, that of CPython 3.11).
    - A Python [dict] is a [gmap]; a Python [list] passed by the caller is
      an object of the store, so that in-place updates are seen by every
      holder of the reference.
    - A call that may raise returns a [result]; stateful code runs in the
      monad [M] over the [state].
    - Console output ([print]) is not modelled. *)

From Stdlib Require Import ZArith NArith Ascii String List Lia.
From stdpp Require Import base option list gmap strings.
Import ListNotations.

Local Open Scope string_scope.
Local Open Scope list_scope.

(** ** Python values, exceptions and results *)

(** The exceptions this module can meet.  [BadRequestError],
    [APITimeoutError] and [RateLimitError] are the [openai] package's; they
    are the backend's RequestRejected, Timeout and RateLimited. *)
Inductive exn : Type :=
  | ValueError (msg : string)
  | KeyError (key : string)
  | IndexError (msg : string)
  | AttributeError (msg : string)
  | BadRequestError (msg : string)
  | APITimeoutError (msg : string)
  | RateLimitError (msg : string).

Inductive result (A : Type) : Type :=
  | Return (a : A)
  | Raise (e : exn).
Arguments Return {A} a.
Arguments Raise {A} e.

Definition result_bind {A B} (r : result A) (k : A -> result B) : result B :=
  match r with
  | Return a => k a
  | Raise e => Raise e
  end.

Definition result_map {A B} (f : A -> B) (r : result A) : result B :=
  result_bind r (fun a => Return (f a)).

Definition code (c : ascii) : N := N_of_ascii c.

(** A [str] as the sequence of its code points. *)
Definition pystr : Type := list N.

(** The [str] that a literal denotes. *)
Definition of_string (s : string) : pystr := map code (list_ascii_of_string s).
Coercion of_string : string >-> pystr.

(** The values a message field or a lambda's result can hold. *)
Inductive value : Type :=
  | VNone
  | VStr (s : pystr)
  | VBool (b : bool).

(** Python truthiness. *)
Definition truthy (v : value) : bool :=
  match v with
  | VNone => false
  | VStr s => match s with [] => false | _ :: _ => true end
  | VBool b => b
  end.

(** [str(v)], as an f-string renders it. *)
Definition str (v : value) : pystr :=
  match v with
  | VNone => of_string "None"
  | VStr s => s
  | VBool true => of_string "True"
  | VBool false => of_string "False"
  end.

(** A chat message: [dict[str, ...]]. *)
Abbreviation message := (gmap string value).

(** [x.get(key, default)] *)
Definition get (x : message) (key : string) (default : value) : value :=
  match x !! key with
  | Some v => v
  | None => default
  end.

(** [x[key]] *)
Definition getitem {V} (x : gmap string V) (key : string) : result V :=
  match x !! key with
  | Some v => Return v
  | None => Raise (KeyError key)
  end.

(** ** String methods *)

(** [c.isspace()] for the character of code point [c]: TAB, LF, VT, FF,
    CR, FS, GS, RS, US, the space, NEL, the no-break space, the Ogham space
    mark, the spaces U+2000 to U+200A, the line and paragraph separators,
    the narrow no-break space, the medium mathematical space and the
    ideographic space. *)
Definition isspace (c : N) : bool :=
  ((9 <=? c) && (c <=? 13) || (28 <=? c) && (c <=? 32) || (c =? 133) || (c =? 160)
   || (c =? 5760) || (8192 <=? c) && (c <=? 8202) || (c =? 8232) || (c =? 8233)
   || (c =? 8239) || (c =? 8287) || (c =? 12288))%N.

(** The case mapping of [str.upper].  [(first, last, step, image)] stands
    for the characters [first], [first + step], ..., [last], which map to
    [image], [image + step], ... *)
Definition upper_runs : list (N * N * N * N) :=
  (
  [ (97, 122, 1, 65); (181, 181, 1, 924); (224, 246, 1, 192);
    (248, 254, 1, 216); (255, 255, 1, 376); (257, 303, 2, 256);
    (305, 305, 1, 73); (307, 311, 2, 306); (314, 328, 2, 313);
    (331, 375, 2, 330); (378, 382, 2, 377); (383, 383, 1, 83);
    (384, 384, 1, 579); (387, 389, 2, 386); (392, 392, 1, 391);
    (396, 396, 1, 395); (402, 402, 1, 401); (405, 405, 1, 502);
    (409, 409, 1, 408); (410, 410, 1, 573); (414, 414, 1, 544);
    (417, 421, 2, 416); (424, 424, 1, 423); (429, 429, 1, 428);
    (432, 432, 1, 431); (436, 438, 2, 435); (441, 441, 1, 440);
    (445, 445, 1, 444); (447, 447, 1, 503); (453, 453, 1, 452);
    (454, 454, 1, 452); (456, 456, 1, 455); (457, 457, 1, 455);
    (459, 459, 1, 458); (460, 460, 1, 458); (462, 476, 2, 461);
    (477, 477, 1, 398); (479, 495, 2, 478); (498, 498, 1, 497);
    (499, 499, 1, 497); (501, 501, 1, 500); (505, 543, 2, 504);
    (547, 563, 2, 546); (572, 572, 1, 571); (575, 576, 1, 11390);
    (578, 578, 1, 577); (583, 591, 2, 582); (592, 592, 1, 11375);
    (593, 593, 1, 11373); (594, 594, 1, 11376); (595, 595, 1, 385);
    (596, 596, 1, 390); (598, 599, 1, 393); (601, 601, 1, 399);
    (603, 603, 1, 400); (604, 604, 1, 42923); (608, 608, 1, 403);
    (609, 609, 1, 42924); (611, 611, 1, 404); (613, 613, 1, 42893);
    (614, 614, 1, 42922); (616, 616, 1, 407); (617, 617, 1, 406);
    (618, 618, 1, 42926); (619, 619, 1, 11362); (620, 620, 1, 42925);
    (623, 623, 1, 412); (625, 625, 1, 11374); (626, 626, 1, 413);
    (629, 629, 1, 415); (637, 637, 1, 11364); (640, 640, 1, 422);
    (642, 642, 1, 42949); (643, 643, 1, 425); (647, 647, 1, 42929);
    (648, 648, 1, 430); (649, 649, 1, 580); (650, 651, 1, 433);
    (652, 652, 1, 581); (658, 658, 1, 439); (669, 669, 1, 42930);
    (670, 670, 1, 42928); (837, 837, 1, 921); (881, 883, 2, 880);
    (887, 887, 1, 886); (891, 893, 1, 1021); (940, 940, 1, 902);
    (941, 943, 1, 904); (945, 961, 1, 913); (962, 962, 1, 931);
    (963, 971, 1, 931); (972, 972, 1, 908); (973, 974, 1, 910);
    (976, 976, 1, 914); (977, 977, 1, 920); (981, 981, 1, 934);
    (982, 982, 1, 928); (983, 983, 1, 975); (985, 1007, 2, 984);
    (1008, 1008, 1, 922); (1009, 1009, 1, 929); (1010, 1010, 1, 1017);
    (1011, 1011, 1, 895); (1013, 1013, 1, 917); (1016, 1016, 1, 1015);
    (1019, 1019, 1, 1018); (1072, 1103, 1, 1040); (1104, 1119, 1, 1024);
    (1121, 1153, 2, 1120); (1163, 1215, 2, 1162); (1218, 1230, 2, 1217);
    (1231, 1231, 1, 1216); (1233, 1327, 2, 1232); (1377, 1414, 1, 1329);
    (4304, 4346, 1, 7312); (4349, 4351, 1, 7357); (5112, 5117, 1, 5104);
    (7296, 7296, 1, 1042); (7297, 7297, 1, 1044); (7298, 7298, 1, 1054);
    (7299, 7300, 1, 1057); (7301, 7301, 1, 1058); (7302, 7302, 1, 1066);
    (7303, 7303, 1, 1122); (7304, 7304, 1, 42570); (7545, 7545, 1, 42877);
    (7549, 7549, 1, 11363); (7566, 7566, 1, 42950); (7681, 7829, 2, 7680);
    (7835, 7835, 1, 7776); (7841, 7935, 2, 7840); (7936, 7943, 1, 7944);
    (7952, 7957, 1, 7960); (7968, 7975, 1, 7976); (7984, 7991, 1, 7992);
    (8000, 8005, 1, 8008); (8017, 8023, 2, 8025); (8032, 8039, 1, 8040);
    (8048, 8049, 1, 8122); (8050, 8053, 1, 8136); (8054, 8055, 1, 8154);
    (8056, 8057, 1, 8184); (8058, 8059, 1, 8170); (8060, 8061, 1, 8186);
    (8112, 8113, 1, 8120); (8126, 8126, 1, 921); (8144, 8145, 1, 8152);
    (8160, 8161, 1, 8168); (8165, 8165, 1, 8172); (8526, 8526, 1, 8498);
    (8560, 8575, 1, 8544); (8580, 8580, 1, 8579); (9424, 9449, 1, 9398);
    (11312, 11359, 1, 11264); (11361, 11361, 1, 11360);
    (11365, 11365, 1, 570); (11366, 11366, 1, 574); (11368, 11372, 2, 11367);
    (11379, 11379, 1, 11378); (11382, 11382, 1, 11381);
    (11393, 11491, 2, 11392); (11500, 11502, 2, 11499);
    (11507, 11507, 1, 11506); (11520, 11557, 1, 4256);
    (11559, 11559, 1, 4295); (11565, 11565, 1, 4301);
    (42561, 42605, 2, 42560); (42625, 42651, 2, 42624);
    (42787, 42799, 2, 42786); (42803, 42863, 2, 42802);
    (42874, 42876, 2, 42873); (42879, 42887, 2, 42878);
    (42892, 42892, 1, 42891); (42897, 42899, 2, 42896);
    (42900, 42900, 1, 42948); (42903, 42921, 2, 42902);
    (42933, 42947, 2, 42932); (42952, 42954, 2, 42951);
    (42961, 42961, 1, 42960); (42967, 42969, 2, 42966);
    (42998, 42998, 1, 42997); (43859, 43859, 1, 42931);
    (43888, 43967, 1, 5024); (65345, 65370, 1, 65313);
    (66600, 66639, 1, 66560); (66776, 66811, 1, 66736);
    (66967, 66977, 1, 66928); (66979, 66993, 1, 66940);
    (66995, 67001, 1, 66956); (67003, 67004, 1, 66964);
    (68800, 68850, 1, 68736); (71872, 71903, 1, 71840);
    (93792, 93823, 1, 93760); (125218, 125251, 1, 125184) ]
  )%N.

(** The characters whose upper case is more than one character. *)
Definition upper_special : list (N * list N) :=
  (
  [ (223, [83; 83]); (329, [700; 78]); (496, [74; 780]);
    (912, [921; 776; 769]); (944, [933; 776; 769]); (1415, [1333; 1362]);
    (7830, [72; 817]); (7831, [84; 776]); (7832, [87; 778]);
    (7833, [89; 778]); (7834, [65; 702]); (8016, [933; 787]);
    (8018, [933; 787; 768]); (8020, [933; 787; 769]);
    (8022, [933; 787; 834]); (8064, [7944; 921]); (8065, [7945; 921]);
    (8066, [7946; 921]); (8067, [7947; 921]); (8068, [7948; 921]);
    (8069, [7949; 921]); (8070, [7950; 921]); (8071, [7951; 921]);
    (8072, [7944; 921]); (8073, [7945; 921]); (8074, [7946; 921]);
    (8075, [7947; 921]); (8076, [7948; 921]); (8077, [7949; 921]);
    (8078, [7950; 921]); (8079, [7951; 921]); (8080, [7976; 921]);
    (8081, [7977; 921]); (8082, [7978; 921]); (8083, [7979; 921]);
    (8084, [7980; 921]); (8085, [7981; 921]); (8086, [7982; 921]);
    (8087, [7983; 921]); (8088, [7976; 921]); (8089, [7977; 921]);
    (8090, [7978; 921]); (8091, [7979; 921]); (8092, [7980; 921]);
    (8093, [7981; 921]); (8094, [7982; 921]); (8095, [7983; 921]);
    (8096, [8040; 921]); (8097, [8041; 921]); (8098, [8042; 921]);
    (8099, [8043; 921]); (8100, [8044; 921]); (8101, [8045; 921]);
    (8102, [8046; 921]); (8103, [8047; 921]); (8104, [8040; 921]);
    (8105, [8041; 921]); (8106, [8042; 921]); (8107, [8043; 921]);
    (8108, [8044; 921]); (8109, [8045; 921]); (8110, [8046; 921]);
    (8111, [8047; 921]); (8114, [8122; 921]); (8115, [913; 921]);
    (8116, [902; 921]); (8118, [913; 834]); (8119, [913; 834; 921]);
    (8124, [913; 921]); (8130, [8138; 921]); (8131, [919; 921]);
    (8132, [905; 921]); (8134, [919; 834]); (8135, [919; 834; 921]);
    (8140, [919; 921]); (8146, [921; 776; 768]); (8147, [921; 776; 769]);
    (8150, [921; 834]); (8151, [921; 776; 834]); (8162, [933; 776; 768]);
    (8163, [933; 776; 769]); (8164, [929; 787]); (8166, [933; 834]);
    (8167, [933; 776; 834]); (8178, [8186; 921]); (8179, [937; 921]);
    (8180, [911; 921]); (8182, [937; 834]); (8183, [937; 834; 921]);
    (8188, [937; 921]); (64256, [70; 70]); (64257, [70; 73]);
    (64258, [70; 76]); (64259, [70; 70; 73]); (64260, [70; 70; 76]);
    (64261, [83; 84]); (64262, [83; 84]); (64275, [1348; 1350]);
    (64276, [1348; 1333]); (64277, [1348; 1339]); (64278, [1358; 1350]);
    (64279, [1348; 1341]) ]
  )%N.

Definition expand_run (r : N * N * N * N) : list (N * list N) :=
  let '(first, last, step, image) := r in
  map (fun k => (first + N.of_nat k * step, [image + N.of_nat k * step])%N)
    (seq 0 (S (N.to_nat ((last - first) / step)))).

(** Every character that [str.upper] changes, with its upper case. *)
Definition upper_table : list (N * list N) :=
  Eval vm_compute in upper_special ++ flat_map expand_run upper_runs.

Fixpoint assoc (c : N) (t : list (N * list N)) : option (list N) :=
  match t with
  | [] => None
  | (d, l) :: t' => if (c =? d)%N then Some l else assoc c t'
  end.

(** [c.upper()] *)
Definition upper_char (c : N) : list N :=
  match assoc c upper_table with
  | Some l => l
  | None => [c]
  end.

(** [s.upper()] *)
Definition upper (s : pystr) : pystr := flat_map upper_char s.

(** [s.rstrip()]: [s] without its trailing whitespace. *)
Fixpoint rstrip (s : pystr) : pystr :=
  match s with
  | [] => []
  | c :: s' =>
      match rstrip s' with
      | [] => if isspace c then [] else [c]
      | r => c :: r
      end
  end.

(** [s == t] *)
Fixpoint pystr_eqb (s t : pystr) : bool :=
  match s, t with
  | [], [] => true
  | a :: s', b :: t' => (a =? b)%N && pystr_eqb s' t'
  | _, _ => false
  end.

(** [s.endswith(suffix)] *)
Fixpoint endswith (s suffix : pystr) : bool :=
  pystr_eqb s suffix ||
  match s with
  | [] => false
  | _ :: s' => endswith s' suffix
  end.

(** [s.startswith(prefix)] *)
Fixpoint startswith (s prefix : string) {struct prefix} : bool :=
  match prefix with
  | EmptyString => true
  | String a prefix' =>
      match s with
      | EmptyString => false
      | String b s' => Ascii.eqb a b && startswith s' prefix'
      end
  end.

(** ** The termination lambdas

    [lambda x: x.get("content", "") and
               x.get("content", "").rstrip().upper().endswith(SENTINEL)]

    [and] returns its left operand when that is falsy.  A truthy content
    that is not a [str] has no [rstrip]. *)
Definition termination_lambda (sentinel : string) (x : message) : result value :=
  let c := get x "content" (VStr "") in
  if truthy c then
    match get x "content" (VStr "") with
    | VStr s => Return (VBool (endswith (upper (rstrip s)) sentinel))
    | VNone => Raise (AttributeError "'NoneType' object has no attribute 'rstrip'")
    | VBool _ => Raise (AttributeError "'bool' object has no attribute 'rstrip'")
    end
  else Return c.

(** The caller (the chat loop) stops when the lambda's result is truthy. *)
Definition fires (r : result value) : bool :=
  match r with
  | Return v => truthy v
  | Raise _ => false
  end.

(** ** Agents *)

(** [code_execution_config] of a [UserProxyAgent]. *)
Record code_execution_config_t : Type := {
  last_n_messages : Z;
  work_dir : string;
  use_docker : bool;
}.

(** The constructor arguments of an autogen agent: what the design calls
    an agent descriptor. *)
Record agent : Type := {
  name : string;
  system_message : string;
  is_termination_msg : option (message -> result value);
  human_input_mode : string;
  max_consecutive_auto_reply : option Z;
  code_execution_config : option code_execution_config_t;
}.

(** One entry of the chat queue given to [register_nested_chats]. *)
Record nested_chat : Type := {
  sender : agent;
  recipient : agent;
  nested_message : agent -> list message -> agent -> gmap string string -> result pystr;
  max_turns : nat;
  summary_method : string;
}.

(** A reply function registered on an agent by [register_nested_chats]. *)
Record nested_chats_reply : Type := {
  chat_queue : list nested_chat;
  trigger : agent;
}.

(** An agent object: its descriptor and the nested chats registered on it. *)
Record agent_obj : Type := {
  descriptor : agent;
  reply_func_list : list nested_chats_reply;
}.

Definition new_agent (d : agent) : agent_obj :=
  {| descriptor := d; reply_func_list := [] |}.

(** [a.reset()] clears the conversation state autogen keeps for [a] (chat
    history and reply counters); it touches neither the descriptor nor the
    registered reply functions. *)
Definition reset (a : agent_obj) : agent_obj := a.

(** [a.register_nested_chats(chat_queue, trigger=...)] *)
Definition register_nested_chats
    (a : agent_obj) (queue : list nested_chat) (trig : agent) : agent_obj :=
  {| descriptor := descriptor a;
     reply_func_list := {| chat_queue := queue; trigger := trig |} :: reply_func_list a |}.

(** ** The wrapper instance and the state around it *)

Abbreviation config := (gmap string string).

Record AutogenWrapper : Type := {
  number_of_rounds : Z;
  agents_map : option (gmap string agent_obj);
  config_list : option (list config);
}.

(** [__init__] *)
Definition init (max_chat_round : Z) : AutogenWrapper :=
  {| number_of_rounds := max_chat_round; agents_map := None; config_list := None |}.

Definition set_agents_map (m : option (gmap string agent_obj)) (w : AutogenWrapper) :=
  {| number_of_rounds := number_of_rounds w; agents_map := m; config_list := config_list w |}.

Definition set_config_list (c : option (list config)) (w : AutogenWrapper) :=
  {| number_of_rounds := number_of_rounds w; agents_map := agents_map w; config_list := c |}.

(** What lives outside the instance: the caller's list objects (a reference
    is an index), the environment variables, the temporary files written so
    far (a path is an index; a file holds the JSON document dumped to it),
    and the records sent to the logger. *)
Record process : Type := {
  lists : list (list string);
  environ : gmap string string;
  temp_files : list (list config);
  log : list (string * string);
}.

(** The state a method of [AutogenWrapper] runs in. *)
Record state : Type := {
  self : AutogenWrapper;
  proc : process;
}.

Definition set_lists (ls : list (list string)) (p : process) : process :=
  {| lists := ls; environ := environ p; temp_files := temp_files p; log := log p |}.
Definition set_environ (e : gmap string string) (p : process) : process :=
  {| lists := lists p; environ := e; temp_files := temp_files p; log := log p |}.
Definition set_temp_files (t : list (list config)) (p : process) : process :=
  {| lists := lists p; environ := environ p; temp_files := t; log := log p |}.
Definition set_log (l : list (string * string)) (p : process) : process :=
  {| lists := lists p; environ := environ p; temp_files := temp_files p; log := l |}.

Definition set_self (w : AutogenWrapper) (s : state) : state :=
  {| self := w; proc := proc s |}.
Definition set_proc (p : process) (s : state) : state :=
  {| self := self s; proc := p |}.

(** ** The monad of methods: state and exceptions *)

Definition M (A : Type) : Type := state -> result A * state.

Definition ret {A} (a : A) : M A := fun s => (Return a, s).
Definition raise {A} (e : exn) : M A := fun s => (Raise e, s).
Definition bind {A B} (m : M A) (k : A -> M B) : M B :=
  fun s => match m s with
           | (Return a, s') => k a s'
           | (Raise e, s') => (Raise e, s')
           end.
Definition lift {A} (r : result A) : M A := fun s => (r, s).
Definition gets {A} (f : state -> A) : M A := fun s => (Return (f s), s).
Definition modify (f : state -> state) : M unit := fun s => (Return tt, f s).

Declare Scope method_scope.
Delimit Scope method_scope with method.
Notation "x <- c1 ;; c2" := (bind c1 (fun x => c2))
  (at level 100, c1 at next level, right associativity) : method_scope.
Notation "c1 ;; c2" := (bind c1 (fun _ => c2))
  (at level 100, right associativity) : method_scope.
Local Open Scope method_scope.

(** [try: body except openai.BadRequestError as bre: handler] *)
Definition try_except_BadRequestError {A} (body : M A) (handler : string -> M A) : M A :=
  fun s => match body s with
           | (Raise (BadRequestError bre), s') => handler bre s'
           | other => other
           end.

(** *** List objects *)

Definition read_list (ref : nat) : M (list string) :=
  gets (fun s => default [] (lists (proc s) !! ref)).

Definition new_list (l : list string) : M nat :=
  fun s => (Return (length (lists (proc s))),
            set_proc (set_lists (lists (proc s) ++ [l]) (proc s)) s).

(** [l] without the first element equal to [x], if there is one. *)
Fixpoint remove_first (x : string) (l : list string) : option (list string) :=
  match l with
  | [] => None
  | y :: l' => if String.eqb y x then Some l' else cons y <$> remove_first x l'
  end.

(** [ref.remove(x)] *)
Definition list_remove (ref : nat) (x : string) : M unit :=
  l <- read_list ref ;;
  match remove_first x l with
  | Some l' => modify (fun s => set_proc (set_lists (<[ref := l']> (lists (proc s))) (proc s)) s)
  | None => raise (ValueError "list.remove(x): x not in list")
  end.

(** *** The environment and temporary files *)

(** [os.environ[key]] *)
Definition environ_getitem (key : string) : M string :=
  fun s => (getitem (environ (proc s)) key, s).

(** [os.environ[key] = v] *)
Definition environ_setitem (key v : string) : M unit :=
  modify (fun s => set_proc (set_environ (<[key := v]> (environ (proc s))) (proc s)) s).

(** [with tempfile.NamedTemporaryFile(delete=False, mode='w') as temp:
       json.dump(doc, temp); temp_file_path = temp.name]
    The file stays on disk after the block. *)
Definition dump_to_temp_file (doc : list config) : M nat :=
  fun s => (Return (length (temp_files (proc s))),
            set_proc (set_temp_files (temp_files (proc s) ++ [doc]) (proc s)) s).

(** [filter_dict] keeps a configuration when, for every key of the filter,
    the configuration's value for the key is among the accepted ones. *)
Definition config_accepted (filter_dict : list (string * list string)) (c : config) : bool :=
  forallb (fun kv : string * list string =>
             match c !! kv.1 with
             | Some v => bool_decide (v ∈ kv.2)
             | None => false
             end) filter_dict.

(** [autogen.config_list_from_json(env_or_file=path, filter_dict=...)] *)
Definition config_list_from_json
    (path : nat) (filter_dict : list (string * list string)) : M (list config) :=
  gets (fun s => List.filter (config_accepted filter_dict)
                   (default [] (temp_files (proc s) !! path))).

(** *** The logger *)

Definition logger (level msg : string) : M unit :=
  modify (fun s => set_proc (set_log (log (proc s) ++ [(level, msg)]) (proc s)) s).

(** ** string.Template

    [Template(t).substitute] with keyword arguments [kwargs] replaces, left to right, [$$] by a
    dollar sign and [$name] or [${name}] by [str(kwargs[name])]; a name is
    an ASCII letter or underscore followed by letters, digits and
    underscores, taken as long as possible.  A missing name raises
    [KeyError], any other use of the dollar sign raises [ValueError] (whose
    message also gives the line and column, left out here).  Substituted
    text is not scanned again. *)

Definition is_id_start (c : ascii) : bool :=
  let n := code c in
  ((n =? 95) || (97 <=? n) && (n <=? 122) || (65 <=? n) && (n <=? 90))%N.

Definition is_id_char (c : ascii) : bool :=
  let n := code c in
  (is_id_start c || (48 <=? n) && (n <=? 57))%N.

Fixpoint string_forall (p : ascii -> bool) (s : string) : bool :=
  match s with
  | EmptyString => true
  | String c s' => p c && string_forall p s'
  end.

Definition valid_id (s : string) : bool :=
  match s with
  | EmptyString => false
  | String c s' => is_id_start c && string_forall is_id_char s'
  end.

Definition snoc (s : string) (c : ascii) : string := s +:+ String c EmptyString.

(** Where the scan stands: in plain text, just after a dollar sign, inside
    a [$name], or inside a [${name}]. *)
Inductive scan_mode : Type :=
  | Text
  | Dollar
  | Named (id : string)
  | Braced (id : string).

Definition invalid_placeholder {A} : result A :=
  Raise (ValueError "Invalid placeholder in string").

Definition emit (v : string) (r : result string) : result string :=
  result_map (fun out => v +:+ out) r.

Fixpoint scan (mapping : gmap string string) (mode : scan_mode) (t : string)
    : result string :=
  match t with
  | EmptyString =>
      match mode with
      | Text => Return ""
      | Dollar => invalid_placeholder
      | Named id => getitem mapping id
      | Braced _ => invalid_placeholder
      end
  | String c t' =>
      match mode with
      | Text =>
          if Ascii.eqb c "$" then scan mapping Dollar t'
          else emit (String c "") (scan mapping Text t')
      | Dollar =>
          if Ascii.eqb c "$" then emit "$" (scan mapping Text t')
          else if is_id_start c then scan mapping (Named (String c "")) t'
          else if Ascii.eqb c "{" then scan mapping (Braced "") t'
          else invalid_placeholder
      | Named id =>
          if is_id_char c then scan mapping (Named (snoc id c)) t'
          else
            result_bind (getitem mapping id) (fun v =>
              emit v (if Ascii.eqb c "$" then scan mapping Dollar t'
                      else emit (String c "") (scan mapping Text t')))
      | Braced id =>
          if Ascii.eqb c "}" then
            if valid_id id then
              result_bind (getitem mapping id) (fun v => emit v (scan mapping Text t'))
            else invalid_placeholder
          else scan mapping (Braced (snoc id c)) t'
      end
  end.

(** [Template(template).substitute], [mapping] being the keyword arguments. *)
Definition substitute (template : string) (mapping : gmap string string) : result string :=
  scan mapping Text template.

(** The double quote character. *)
Definition dquote : string := String (ascii_of_N 34) "".

(** ** AutogenWrapper *)

Section Wrapper.

(** The prompt table [ae.core.prompts.LLM_PROMPTS], at the three keys
    this module reads. *)
Variable USER_AGENT_PROMPT : string.
Variable BROWSER_NAV_EXECUTOR_PROMPT : string.
Variable COMMAND_EXECUTION_PROMPT : string.

(** [BrowserNavAgent(config_list, executor).agent] and
    [PlannerAgent(config_list).agent], defined in [ae.core.agents]. *)
Variable BrowserNavAgent : option (list config) -> agent_obj -> agent_obj.
Variable PlannerAgent : option (list config) -> agent_obj.

(** [dotenv.load_dotenv], on the environment variables. *)
Variable load_dotenv : gmap string string -> gmap string string.

(** How the chat started by [initiator.a_initiate_chat(recipient,
    message=prompt, ...)] ends: normally, or with an exception of the
    backend. *)
Variable a_initiate_chat : agent_obj -> agent_obj -> string -> option exn.

(** The [autogen.UserProxyAgent(...)] call of [__create_user_proxy_agent],
    [rounds] being [self.number_of_rounds]. *)
Definition user_proxy_descriptor (rounds : Z) : agent :=
  {| name := "user_proxy";
     system_message := USER_AGENT_PROMPT;
     is_termination_msg := Some (termination_lambda "##TERMINATE##");
     human_input_mode := "NEVER";
     max_consecutive_auto_reply := Some rounds;
     code_execution_config := None |}.

Definition __create_user_proxy_agent : M agent_obj :=
  rounds <- gets (fun s => number_of_rounds (self s)) ;;
  ret (new_agent (user_proxy_descriptor rounds)).

(** The [autogen.UserProxyAgent(...)] call of
    [__create_browser_nav_executor_agent]. *)
Definition browser_nav_executor_descriptor (rounds : Z) : agent :=
  {| name := "browser_nav_executor";
     system_message := BROWSER_NAV_EXECUTOR_PROMPT;
     is_termination_msg := Some (termination_lambda "##TERMINATE SUBTASK##");
     human_input_mode := "NEVER";
     max_consecutive_auto_reply := Some rounds;
     code_execution_config :=
       Some {| last_n_messages := 1; work_dir := "tasks"; use_docker := false |} |}.

Definition __create_browser_nav_executor_agent : M agent_obj :=
  rounds <- gets (fun s => number_of_rounds (self s)) ;;
  ret (new_agent (browser_nav_executor_descriptor rounds)).

Definition __create_browser_nav_agent (user_proxy_agent : agent_obj) : M agent_obj :=
  cfg <- gets (fun s => config_list (self s)) ;;
  ret (BrowserNavAgent cfg user_proxy_agent).

Definition __create_planner_agent : M agent_obj :=
  cfg <- gets (fun s => config_list (self s)) ;;
  ret (PlannerAgent cfg).

(** [agents_map] as it stands before the loop of [__initialize_agents]:
    the initiator and the executor. *)
Definition base_map (rounds : Z) : gmap string agent_obj :=
  <["browser_nav_executor" := new_agent (browser_nav_executor_descriptor rounds)]>
    (<["user_proxy" := new_agent (user_proxy_descriptor rounds)]> ∅).

(** The [for agent_needed in agents_needed] loop of
    [__initialize_agents], on the elements still to visit. *)
Fixpoint initialize_loop
    (browser_nav_executor : agent_obj) (agents_needed : list string)
    (agents_map : gmap string agent_obj) : M (gmap string agent_obj) :=
  match agents_needed with
  | [] => ret agents_map
  | agent_needed :: rest =>
      if String.eqb agent_needed "browser_nav_agent" then
        browser_nav_agent <- __create_browser_nav_agent browser_nav_executor ;;
        initialize_loop browser_nav_executor rest
          (<["browser_nav_agent" := reset browser_nav_agent]> agents_map)
      else if String.eqb agent_needed "planner_agent" then
        planner_agent <- __create_planner_agent ;;
        initialize_loop browser_nav_executor rest
          (<["planner_agent" := reset planner_agent]> agents_map)
      else raise (ValueError ("Unknown agent type: " +:+ agent_needed))
  end.

(** [agents_needed] is a reference to the caller's list. *)
Definition __initialize_agents (agents_needed : nat) : M (gmap string agent_obj) :=
  needed <- read_list agents_needed ;;
  if bool_decide ("user_proxy" ∈ needed) then
    let agents_map : gmap string agent_obj := ∅ in
    user_proxy_agent <- __create_user_proxy_agent ;;
    let agents_map := <["user_proxy" := reset user_proxy_agent]> agents_map in
    list_remove agents_needed "user_proxy" ;;
    browser_nav_executor <- __create_browser_nav_executor_agent ;;
    let agents_map := <["browser_nav_executor" := reset browser_nav_executor]> agents_map in
    list_remove agents_needed "browser_nav_executor" ;;
    remaining <- read_list agents_needed ;;
    initialize_loop browser_nav_executor remaining agents_map
  else raise (ValueError "user_proxy agent is required in the list of needed agents.").

(** The callable given as the nested chat's [message]. *)
Definition nested_chat_message
    (recipient : agent) (messages : list message) (sender : agent)
    (config : gmap string string) : result pystr :=
  match messages with
  | [] => Raise (IndexError "list index out of range")
  | m0 :: _ => result_map str (getitem m0 "content")
  end.

Definition default_agents_needed : list string :=
  ["user_proxy"; "browser_nav_executor"; "planner_agent"; "browser_nav_agent"].

(** Lines 51 to 58 of [create]: the backend configuration, through the
    environment and a temporary file. *)
Definition create_config_list : M unit :=
  modify (fun s => set_proc (set_environ (load_dotenv (environ (proc s))) (proc s)) s) ;;
  environ_setitem "AUTOGEN_USE_DOCKER" "False" ;;
  api_key <- environ_getitem "OPENAI_API_KEY" ;;
  let env_var : list config :=
    [ {[ "model" := "gpt-4-turbo-preview"; "api_key" := api_key ]} ] in
  temp_file_path <- dump_to_temp_file env_var ;;
  cfg <- config_list_from_json temp_file_path [("model", ["gpt-4-turbo-preview"])] ;;
  modify (fun s => set_self (set_config_list (Some cfg) (self s)) s).

(** Lines 70 to 82 of [create]: the nested chat registered on the
    initiator, looked up in [self.agents_map]. *)
Definition create_nested_chats : M unit :=
  agents <- gets (fun s => agents_map (self s)) ;;
  match agents with
  | None => raise (AttributeError "'NoneType' object is not subscriptable")
  | Some m =>
      user_proxy <- lift (getitem m "user_proxy") ;;
      executor <- lift (getitem m "browser_nav_executor") ;;
      navigator <- lift (getitem m "browser_nav_agent") ;;
      planner <- lift (getitem m "planner_agent") ;;
      let registered :=
        register_nested_chats user_proxy
          [ {| sender := descriptor executor;
               recipient := descriptor navigator;
               nested_message := nested_chat_message;
               max_turns := 2;
               summary_method := "last_msg" |} ]
          (descriptor planner) in
      modify (fun s =>
                set_self (set_agents_map (Some (<["user_proxy" := registered]> m)) (self s)) s)
  end.

(** The body of the class method [create], run on the fresh instance. *)
Definition create_body (agents_needed : option nat) : M AutogenWrapper :=
  agents_needed <- match agents_needed with
                   | None => new_list default_agents_needed
                   | Some ref => ret ref
                   end ;;
  create_config_list ;;
  m <- __initialize_agents agents_needed ;;
  modify (fun s => set_self (set_agents_map (Some m) (self s)) s) ;;
  create_nested_chats ;;
  gets self.

(** [AutogenWrapper.create(agents_needed, max_chat_round)], started in
    the process state [p]: the outcome and the state it leaves, [self]
    being the instance under construction. *)
Definition create (agents_needed : option nat) (max_chat_round : Z) (p : process)
    : result AutogenWrapper * state :=
  create_body agents_needed {| self := init max_chat_round; proc := p |}.

(** The first lines of [process_command]: the context segment. *)
Definition current_url_prompt_segment (current_url : option string) : string :=
  match current_url with
  | Some url => if truthy (VStr url) then "Current URL: " +:+ url else ""
  | None => ""
  end.

(** The prompt of [process_command]. *)
Definition render_prompt (command : string) (current_url : option string)
    : result string :=
  substitute COMMAND_EXECUTION_PROMPT
    {[ "command" := command;
       "current_url_prompt_segment" := current_url_prompt_segment current_url ]}.

Definition process_command (command : string) (current_url : option string) : M unit :=
  prompt <- lift (render_prompt command current_url) ;;
  logger "INFO" ("Prompt for command: " +:+ prompt) ;;
  try_except_BadRequestError
    (m <- gets (fun s => agents_map (self s)) ;;
     match m with
     | None => raise (ValueError "Agents map is not initialized.")
     | Some m =>
         user_proxy <- lift (getitem m "user_proxy") ;;
         planner <- lift (getitem m "planner_agent") ;;
         match a_initiate_chat user_proxy planner prompt with
         | None => ret tt
         | Some e => raise e
         end
     end)
    (fun bre =>
       logger "ERROR"
         ("Unable to process command: " +:+ dquote +:+ command +:+ dquote +:+ ". " +:+ bre)).

End Wrapper.

(** ** The design's wording of the termination rule

    The agent stops when "the message ends with a sentinel marker,
    case-insensitive, after trimming trailing whitespace": the content is
    some text, then a run of characters equal to the marker up to case,
    then only whitespace.  The three notions are written out here on code
    points, without [rstrip], [upper] or [isspace]. *)

(** The whitespace characters: Unicode's White_Space and the four
    separators FS, GS, RS and US. *)
Definition whitespace (c : N) : Prop :=
  c ∈ [9; 10; 11; 12; 13; 28; 29; 30; 31; 32; 133; 160; 5760;
       8192; 8193; 8194; 8195; 8196; 8197; 8198; 8199; 8200; 8201; 8202;
       8232; 8233; 8239; 8287; 12288]%N.

(** [c] is the marker's character [m] up to case: [m] itself or, when [m]
    is a capital letter A to Z, a small letter of which [m] is the capital,
    that is, the ASCII small letter and, for I and S, the dotless i
    (U+0131) and the long s (U+017F). *)
Definition same_letter (c m : N) : Prop :=
  c = m
  \/ ((65 <= m)%N /\ (m <= 90)%N /\ c = (m + 32)%N)
  \/ (m = 73%N /\ c = 305%N)
  \/ (m = 83%N /\ c = 383%N).

Definition ends_with_marker (sentinel : string) (s : pystr) : Prop :=
  exists pre tail ws,
    s = pre ++ tail ++ ws
    /\ Forall whitespace ws
    /\ Forall2 same_letter tail (of_string sentinel).

(** ** Markers and the case mapping

    What the proofs check, by computation, of a marker [M] against
    [upper_table]. *)

Definition same_letterb (c m : N) : bool :=
  ((c =? m)
   || (65 <=? m) && (m <=? 90) && (c =? m + 32)
   || (m =? 73) && (c =? 305)
   || (m =? 83) && (c =? 383))%N.

Fixpoint is_prefix (l s : list N) : bool :=
  match l, s with
  | [], _ => true
  | a :: l', b :: s' => (a =? b)%N && is_prefix l' s'
  | _ :: _, [] => false
  end.

(** An upper case that starts what is left of the marker, [suf], is one
    character, the upper case of a character equal to it up to case. *)
Definition entry_ok (suf : list N) (e : N * list N) : bool :=
  match suf with
  | [] => match e.2 with [] => false | _ :: _ => true end
  | m :: _ => negb (is_prefix e.2 suf) || pystr_eqb e.2 [m] && same_letterb e.1 m
  end.

Fixpoint tails (l : list N) : list (list N) :=
  l :: match l with
       | [] => []
       | _ :: l' => tails l'
       end.

(** The characters equal to [m] up to case have [m] as their upper case. *)
Definition letter_ok (m : N) : bool :=
  (pystr_eqb (upper_char m) [m]
   && (negb ((65 <=? m) && (m <=? 90)) || pystr_eqb (upper_char (m + 32)) [m])
   && (negb (m =? 73) || pystr_eqb (upper_char 305) [m])
   && (negb (m =? 83) || pystr_eqb (upper_char 383) [m]))%N.

(** The marker's first character comes from no longer upper case, and its
    last character is neither a letter nor whitespace. *)
Definition marker_ok (M : list N) : bool :=
  forallb (fun suf => forallb (entry_ok suf) upper_table) (tails M)
  && forallb letter_ok M
  && match M with
     | [] => false
     | m0 :: _ =>
         forallb (fun e => negb (existsb (N.eqb m0) e.2) || pystr_eqb e.2 [m0]) upper_table
     end
  && match last M with
     | None => false
     | Some m => (negb (isspace m) && negb ((65 <=? m) && (m <=? 90)))%N
     end.

(** ** The design's names for the configuration errors

    Both are [ValueError]s in the code, told apart by their message. *)
Definition MissingRequiredRole : exn :=
  ValueError "user_proxy agent is required in the list of needed agents.".

Definition UnknownRole (role : string) : exn :=
  ValueError ("Unknown agent type: " +:+ role).

Definition is_UnknownRole (e : exn) : bool :=
  match e with
  | ValueError msg => startswith msg "Unknown agent type: "
  | _ => false
  end.

(** The closed set of role names. *)
Definition known_roles : list string :=
  ["user_proxy"; "browser_nav_executor"; "planner_agent"; "browser_nav_agent"].

(** The list object at [ref] replaced by [l]. *)
Definition with_list (ref : nat) (l : list string) (s : state) : state :=
  set_proc (set_lists (<[ref := l]> (lists (proc s))) (proc s)) s.

(** ** Reading a rendered prompt *)

(** [needle in s] *)
Fixpoint contains (s needle : string) : bool :=
  startswith s needle ||
  match s with
  | EmptyString => false
  | String _ s' => contains s' needle
  end.

(** [s] has no dollar sign: the template scan copies it as it is. *)
Definition no_dollar (s : string) : bool :=
  string_forall (fun c => negb (Ascii.eqb c "$")) s.

(** [s] starts with a character that would extend a placeholder name
    written just before it. *)
Definition continues_name (s : string) : bool :=
  match s with
  | EmptyString => false
  | String c _ => is_id_char c
  end.

(** ** Nested exchanges

    The code registers the delegation link; running it is left to the
    autogen library, which is not part of this module.  The run is taken
    from the design (section 4.2): a turn is one message produced by one
    agent. *)
Section Delegation.

(** The backend's reply for an agent, given the turns so far. *)
Variable SendTurn : agent -> list string -> result string.

(** Modelled from the spec: the termination predicate of a participant of a
    nested exchange (missing: the autogen chat loop that calls it), applied
    to its own outgoing message. *)
Definition terminates (a : agent) (content : string) : bool :=
  match is_termination_msg a with
  | Some f => fires (f {[ "content" := VStr content ]})
  | None => false
  end.

(** Modelled from the spec: the turns of a nested exchange after the first
    (missing: the autogen chat loop).  The two agents alternate, [speaker]
    replying first; the exchange ends as soon as a participant's
    termination predicate fires on its own message or [n] turns were
    added. *)
Fixpoint exchange (n : nat) (speaker listener : agent) (transcript : list string)
    : result (list string) :=
  match n with
  | O => Return transcript
  | S n' =>
      result_bind (SendTurn speaker transcript) (fun reply =>
        if terminates speaker reply then Return (transcript ++ [reply])
        else exchange n' listener speaker (transcript ++ [reply]))
  end.

(** Modelled from the spec: the transcript of [RunNested] (missing: the
    autogen run of a registered nested chat).  The sub-exchange is fresh
    and starts with [fromRole], the link's [sender], sending the
    triggering message as the first turn; it is bounded by
    [maxNestedRounds], the link's [max_turns]. *)
Definition nested_transcript (link : nested_chat) (triggeringMessage : string)
    : result (list string) :=
  match max_turns link with
  | O => Return []
  | S n =>
      if terminates (sender link) triggeringMessage then Return [triggeringMessage]
      else exchange n (recipient link) (sender link) [triggeringMessage]
  end.

(** Modelled from the spec: the summary policy (missing: autogen's
    [summary_method]).  [last_msg] is the last message verbatim; the
    design names no other policy. *)
Definition summarize (policy : string) (transcript : list string) : result string :=
  if String.eqb policy "last_msg" then Return (List.last transcript "")
  else Raise (ValueError ("Unknown summary policy: " +:+ policy)).

(** Modelled from the spec: [RunNested(link, triggeringMessage)] (missing:
    the autogen run of a registered nested chat), which returns the
    summary of the sub-exchange as a single message. *)
Definition RunNested (link : nested_chat) (triggeringMessage : string) : result string :=
  result_bind (nested_transcript link triggeringMessage) (summarize (summary_method link)).

End Delegation.

(** The delegation links of a wrapper: the nested chats registered on its
    initiator. *)
Definition delegation_links (w : AutogenWrapper) : list nested_chats_reply :=
  match agents_map w with
  | Some m =>
      match m !! "user_proxy" with
      | Some initiator => reply_func_list initiator
      | None => []
      end
  | None => []
  end.

(** ** A sample configuration

    Concrete collaborators on which the statements below are evaluated. *)
Module Sample.

Definition navigator (cfg : option (list config)) (executor : agent_obj) : agent_obj :=
  new_agent {| name := "browser_nav_agent";
               system_message := "You navigate.";
               is_termination_msg := None;
               human_input_mode := "NEVER";
               max_consecutive_auto_reply := None;
               code_execution_config := None |}.

Definition planner (cfg : option (list config)) : agent_obj :=
  new_agent {| name := "planner_agent";
               system_message := "You plan.";
               is_termination_msg := None;
               human_input_mode := "NEVER";
               max_consecutive_auto_reply := None;
               code_execution_config := None |}.

(** A process holding the list objects [ls] and an API key. *)
Definition process_with (ls : list (list string)) : process :=
  {| lists := ls;
     environ := {[ "OPENAI_API_KEY" := "sk-test" ]};
     temp_files := [];
     log := [] |}.

Definition state_with (ls : list (list string)) : state :=
  {| self := init 50; proc := process_with ls |}.

Definition dotenv (e : gmap string string) : gmap string string := e.

(** A command template with the two placeholders [process_command]
    fills. *)
Definition template : string :=
  "Execute the user task " +:+ dquote +:+ "$command" +:+ dquote
    +:+ " $current_url_prompt_segment".

Definition create_with (agents_needed : option nat) (p : process)
    : result AutogenWrapper * state :=
  create "You are the user." "You execute." navigator planner dotenv
    agents_needed 50 p.

Definition initialize_agents (ref : nat) : M (gmap string agent_obj) :=
  __initialize_agents "You are the user." "You execute." navigator planner ref.

(** A registry with the four roles, and a state whose instance holds it. *)
Definition registry : gmap string agent_obj :=
  <["planner_agent" := planner None]>
    (<["browser_nav_agent" :=
         navigator None (new_agent (browser_nav_executor_descriptor "You execute." 50))]>
       (base_map "You are the user." "You execute." 50)).

Definition ready_state : state :=
  {| self := set_agents_map (Some registry) (init 50); proc := process_with [] |}.

(** The wrapper that [create] returns with the default roles. *)
Definition wrapper : AutogenWrapper :=
  match (create_with None (process_with [])).1 with
  | Return w => w
  | Raise _ => init 50
  end.

(** A backend whose every reply is the speaker's name and a word. *)
Definition send_turn (a : agent) (transcript : list string) : result string :=
  Return (name a +:+ ": done").

(** A backend that fails every chat with [e]. *)
Definition failing_backend (e : exn) (a b : agent_obj) (prompt : string) : option exn :=
  Some e.

End Sample.

(** Whether a call returned. *)
Definition returned {A} (r : result A) : bool :=
  match r with
  | Return _ => true
  | Raise _ => false
  end.

(** The roles that the loop of [__initialize_agents] builds. *)
Definition built_in_loop (a : string) : Prop :=
  a = "browser_nav_agent" \/ a = "planner_agent".

(** * Properties *)

(** ** Strings *)

(** stdpp keeps [String.append] folded; the proofs below compute with it. *)
#[local] Arguments String.append !s1 s2 : simpl nomatch.

Section StringFacts.

Implicit Types s t u : string.

Lemma append_nil_r s : s +:+ "" = s.
Proof. induction s as [|c s IH]; simpl; [reflexivity | now rewrite IH]. Qed.

Lemma append_assoc s t u : (s +:+ t) +:+ u = s +:+ (t +:+ u).
Proof. induction s as [|c s IH]; simpl; [reflexivity | now rewrite IH]. Qed.

End StringFacts.

(** ** Code point strings *)

#[local] Arguments upper_char : simpl never.

Lemma truthy_of_string (s : string) : truthy (VStr s) = negb (String.eqb s "").
Proof. destruct s; reflexivity. Qed.

Lemma pystr_eqb_eq (s t : pystr) : pystr_eqb s t = true <-> s = t.
Proof.
  revert t. induction s as [|a s IH]; intros [|b t]; simpl.
  - split; reflexivity.
  - split; discriminate.
  - split; discriminate.
  - rewrite andb_true_iff, N.eqb_eq, IH. split.
    + intros [-> ->]. reflexivity.
    + intros H. injection H. auto.
Qed.

(** *** [endswith] *)

Lemma endswith_iff (s suffix : pystr) :
  endswith s suffix = true <-> exists p, s = p ++ suffix.
Proof.
  split.
  - induction s as [|c s IH]; cbn [endswith]; rewrite orb_true_iff, pystr_eqb_eq.
    + intros [<-|H]; [now exists [] | discriminate].
    + intros [<-|H]; [now exists [] |].
      destruct (IH H) as [p ->]. now exists (c :: p).
  - intros [p ->]. induction p as [|c p IH].
    + destruct suffix as [|d suffix]; [reflexivity|].
      simpl. apply orb_true_iff. left. apply andb_true_iff. split.
      * apply N.eqb_refl.
      * now apply pystr_eqb_eq.
    + simpl. rewrite IH. apply orb_true_r.
Qed.

(** Of two suffixes of one string, the shorter is a suffix of the longer. *)
Lemma endswith_both (s a b : pystr) :
  endswith s a = true -> endswith s b = true ->
  length a <= length b ->
  endswith b a = true.
Proof.
  rewrite !endswith_iff. intros [p ->] [q Hq] Hlen.
  apply app_eq_app in Hq as [l [[_ Hb] | [_ Ha]]].
  - now exists l.
  - exists []. assert (Hl : length a = length l + length b)
      by (rewrite Ha; apply length_app).
    destruct l; [now symmetry | simpl in Hl; lia].
Qed.

(** *** [rstrip] *)

Lemma rstrip_all_space (s : pystr) :
  Forall (fun c => isspace c = true) s -> rstrip s = [].
Proof.
  induction 1 as [|c s Hc _ IH]; simpl; [reflexivity|]. now rewrite IH, Hc.
Qed.

(** [rstrip] only removes a run of whitespace at the end. *)
Lemma rstrip_decompose (s : pystr) :
  exists ws, s = rstrip s ++ ws /\ Forall (fun c => isspace c = true) ws.
Proof.
  induction s as [|c s (ws & IH & Hws)]; simpl.
  - now exists [].
  - destruct (rstrip s) as [|d r] eqn:Hr; simpl in IH.
    + destruct (isspace c) eqn:Hc.
      * exists (c :: ws). split; [simpl; congruence | now constructor].
      * exists ws. split; [simpl; congruence | assumption].
    + exists ws. split; [simpl; congruence | assumption].
Qed.

Lemma rstrip_append_space (s ws : pystr) :
  Forall (fun c => isspace c = true) ws -> rstrip (s ++ ws) = rstrip s.
Proof.
  intros Hws. induction s as [|c s IH]; simpl.
  - now apply rstrip_all_space.
  - now rewrite IH.
Qed.

(** A string that ends with a character other than whitespace is kept. *)
Lemma rstrip_snoc (s : pystr) (c : N) :
  isspace c = false -> rstrip (s ++ [c]) = s ++ [c].
Proof.
  intros Hc. induction s as [|d s IH]; simpl; [now rewrite Hc|].
  rewrite IH. destruct (s ++ [c]) eqn:E; [|reflexivity]. now destruct s.
Qed.

(** [isspace] is the whitespace class of the design's wording. *)
Lemma isspace_whitespace (c : N) : isspace c = true <-> whitespace c.
Proof.
  unfold isspace, whitespace.
  rewrite !orb_true_iff, !andb_true_iff, !N.leb_le, !N.eqb_eq.
  rewrite !elem_of_cons, elem_of_nil. lia.
Qed.

(** *** [upper] *)

Lemma upper_cons (c : N) (s : pystr) : upper (c :: s) = upper_char c ++ upper s.
Proof. reflexivity. Qed.

Lemma upper_app (s t : pystr) : upper (s ++ t) = upper s ++ upper t.
Proof. apply flat_map_app. Qed.

Lemma assoc_In (c : N) (t : list (N * list N)) (l : list N) :
  assoc c t = Some l -> In (c, l) t.
Proof.
  induction t as [|[d k] t IH]; simpl; [discriminate|].
  destruct (N.eqb_spec c d) as [->|]; [|auto].
  intros H. injection H as ->. now left.
Qed.

(** A character is its own upper case unless the table lists it. *)
Lemma upper_char_cases (c : N) :
  upper_char c = [c] \/ In (c, upper_char c) upper_table.
Proof.
  unfold upper_char. destruct (assoc c upper_table) eqn:E.
  - right. now apply assoc_In.
  - now left.
Qed.

(** When [m] only ever is a whole upper case, an occurrence of [m] in an
    upper-cased string starts at the upper case of one of its characters. *)
Lemma upper_boundary (m : N) (M' : list N) :
  (forall c, In m (upper_char c) -> upper_char c = [m]) ->
  forall (r p : pystr), upper r = p ++ m :: M' ->
  exists pre tail, r = pre ++ tail /\ upper pre = p /\ upper tail = m :: M'.
Proof.
  intros Hm. induction r as [|c r IH]; intros p Hr.
  - destruct p; discriminate.
  - rewrite upper_cons in Hr.
    apply app_eq_app in Hr as [l [[Hc Hl] | [Hp Hl]]].
    + destruct l as [|m' l].
      * rewrite app_nil_r in Hc. simpl in Hl.
        exists [c], r. split; [reflexivity|]. split; [|now symmetry].
        rewrite upper_cons. simpl. now rewrite app_nil_r.
      * injection Hl as <- Hl.
        assert (Hin : In m (upper_char c)).
        { rewrite Hc. apply in_or_app. right. now left. }
        apply Hm in Hin. rewrite Hin in Hc.
        destruct p as [|a p]; [|destruct p; discriminate].
        injection Hc as <-.
        exists [], (c :: r). split; [reflexivity|]. split; [reflexivity|].
        rewrite upper_cons, Hin. simpl. now rewrite Hl.
    + destruct (IH l Hl) as (pre & tail & -> & Hpre & Htail).
      exists (c :: pre), tail. split; [reflexivity|]. split; [|assumption].
      rewrite upper_cons. now rewrite Hpre, Hp.
Qed.

(** *** Markers *)

Lemma same_letterb_spec (c m : N) : same_letterb c m = true <-> same_letter c m.
Proof.
  unfold same_letterb, same_letter.
  rewrite !orb_true_iff, !andb_true_iff, !N.leb_le, !N.eqb_eq. tauto.
Qed.

Lemma is_prefix_app (l k : list N) : is_prefix l (l ++ k) = true.
Proof. induction l as [|a l IH]; simpl; [reflexivity|]. now rewrite N.eqb_refl. Qed.

Lemma tails_self (l : list N) : In l (tails l).
Proof. destruct l; now left. Qed.

Lemma tails_In_tail (m : N) (suf l : list N) :
  In (m :: suf) (tails l) -> In suf (tails l).
Proof.
  induction l as [|a l IH]; simpl.
  - intros [H|[]]. discriminate.
  - intros [H|H].
    + injection H as _ <-. right. apply tails_self.
    + right. auto.
Qed.

(** The characters of a string whose upper case is what is left of the
    marker are those of the marker up to case. *)
Lemma upper_matches (M : list N) :
  forallb (fun suf => forallb (entry_ok suf) upper_table) (tails M) = true ->
  forall (tail : pystr) (suf : list N),
    In suf (tails M) -> upper tail = suf -> Forall2 same_letter tail suf.
Proof.
  intros HM. induction tail as [|c t IH]; intros suf Hsuf Hup.
  - rewrite <- Hup. constructor.
  - rewrite upper_cons in Hup.
    destruct (upper_char_cases c) as [Hc | Hin].
    + rewrite Hc in Hup. simpl in Hup. subst suf.
      constructor; [now left|].
      apply IH; [eapply tails_In_tail; eassumption | reflexivity].
    + assert (Hok : entry_ok suf (c, upper_char c) = true).
      { rewrite forallb_forall in HM. specialize (HM suf Hsuf).
        rewrite forallb_forall in HM. now apply HM. }
      destruct suf as [|m suf]; unfold entry_ok in Hok; cbn [snd fst] in Hok.
      * destruct (upper_char c); [discriminate Hok | discriminate Hup].
      * assert (Hpre : is_prefix (upper_char c) (m :: suf) = true)
          by (rewrite <- Hup; apply is_prefix_app).
        rewrite Hpre in Hok. cbn [negb orb] in Hok.
        apply andb_true_iff in Hok as [Hone Hsame].
        apply pystr_eqb_eq in Hone. apply same_letterb_spec in Hsame.
        rewrite Hone in Hup. injection Hup as Hup.
        constructor; [assumption|].
        apply IH; [eapply tails_In_tail; eassumption | assumption].
Qed.

Lemma same_letter_upper (c m : N) :
  letter_ok m = true -> same_letter c m -> upper_char c = [m].
Proof.
  unfold letter_ok.
  rewrite !andb_true_iff, !orb_true_iff, !negb_true_iff, !pystr_eqb_eq.
  intros (((H1 & H2) & H3) & H4) [->|[(Ha & Hb & ->)|[[-> ->]|[-> ->]]]].
  - exact H1.
  - destruct H2 as [H2|H2]; [|exact H2].
    apply andb_false_iff in H2. rewrite !N.leb_gt in H2. lia.
  - destruct H3 as [H3|H3]; [discriminate H3 | exact H3].
  - destruct H4 as [H4|H4]; [discriminate H4 | exact H4].
Qed.

(** Conversely, a string equal to the marker up to case has the marker as
    its upper case. *)
Lemma matches_upper (tail : pystr) (suf : list N) :
  forallb letter_ok suf = true -> Forall2 same_letter tail suf -> upper tail = suf.
Proof.
  intros Hok H. induction H as [|c m t suf Hcm _ IH]; [reflexivity|].
  simpl in Hok. apply andb_true_iff in Hok as [Hm Hok].
  rewrite upper_cons, (same_letter_upper c m Hm Hcm), (IH Hok). reflexivity.
Qed.

(** The code's test on a marker, in the design's wording. *)
Lemma endswith_marker (M : list N) (s : pystr) :
  marker_ok M = true ->
  endswith (upper (rstrip s)) M = true
  <-> exists pre tail ws,
        s = pre ++ tail ++ ws /\ Forall whitespace ws /\ Forall2 same_letter tail M.
Proof.
  unfold marker_ok. rewrite !andb_true_iff. intros (((H1 & H2) & H3) & H4).
  rewrite endswith_iff. split.
  - intros [p Hp].
    destruct M as [|m0 M']; [discriminate H3|].
    assert (Hboundary : forall c, In m0 (upper_char c) -> upper_char c = [m0]).
    { intros c Hin. destruct (upper_char_cases c) as [Hc | Htable].
      - rewrite Hc in Hin. destruct Hin as [->|[]]. exact Hc.
      - rewrite forallb_forall in H3. specialize (H3 _ Htable). cbn [snd] in H3.
        apply orb_true_iff in H3 as [H3|H3]; [|now apply pystr_eqb_eq].
        apply negb_true_iff in H3.
        assert (Hex : existsb (N.eqb m0) (upper_char c) = true).
        { apply existsb_exists. exists m0. split; [assumption | apply N.eqb_refl]. }
        congruence. }
    destruct (rstrip_decompose s) as (ws & Hs & Hws).
    destruct (upper_boundary m0 M' Hboundary (rstrip s) p Hp)
      as (pre & tail & Hr & _ & Htail).
    exists pre, tail, ws. split; [|split].
    + rewrite Hs at 1. rewrite Hr. symmetry. apply app_assoc.
    + eapply Forall_impl; [exact Hws|]. intros c. apply isspace_whitespace.
    + apply (upper_matches (m0 :: M') H1); [apply tails_self | exact Htail].
  - intros (pre & tail & ws & -> & Hws & Htail).
    exists (upper pre).
    destruct (last M) as [m|] eqn:Hlast; [|discriminate H4].
    apply andb_true_iff in H4 as [Hspace Hletter].
    apply negb_true_iff in Hspace. apply negb_true_iff in Hletter.
    apply last_Some in Hlast as [M' HM'].
    rewrite HM' in Htail.
    apply Forall2_app_inv_r in Htail as (t1 & t2 & Ht1 & Ht2 & ->).
    inversion Ht2 as [|c m' t2' k Hcm Hnil]; subst.
    inversion Hnil; subst.
    assert (c = m) as ->.
    { destruct Hcm as [->|[(Ha & Hb & _)|[[-> _]|[-> _]]]]; [reflexivity|..].
      - apply andb_false_iff in Hletter. rewrite !N.leb_gt in Hletter. lia.
      - discriminate Hletter.
      - discriminate Hletter. }
    rewrite app_assoc, rstrip_append_space
      by (eapply Forall_impl; [exact Hws|]; intros c; apply isspace_whitespace).
    rewrite app_assoc, rstrip_snoc by assumption.
    rewrite <- app_assoc, upper_app. f_equal.
    apply matches_upper; [exact H2|].
    apply Forall2_app; [assumption | now constructor].
Qed.

(** ** The termination predicates *)

(** On a [str] content the lambda fires exactly when the code's own test
    holds: the left operand of [and] never decides alone. *)
Lemma termination_lambda_str (sentinel : string) (Hne : sentinel <> "")
    (x : message) (s : pystr) :
  x !! "content" = Some (VStr s) ->
  fires (termination_lambda sentinel x) = endswith (upper (rstrip s)) sentinel.
Proof.
  intros Hx. unfold termination_lambda, get. rewrite Hx.
  destruct s as [|c s]; [|reflexivity].
  destruct sentinel; [congruence | reflexivity].
Qed.

(** A message without content, or with an empty one, does not fire. *)
Lemma termination_lambda_empty (sentinel : string) (x : message) :
  x !! "content" = None \/ x !! "content" = Some (VStr "") ->
  fires (termination_lambda sentinel x) = false.
Proof.
  intros [Hx|Hx]; unfold termination_lambda, get; rewrite Hx; reflexivity.
Qed.

(** A lambda that fires was given a non-empty [str] content. *)
Lemma termination_lambda_fires_str (sentinel : string) (x : message) :
  fires (termination_lambda sentinel x) = true ->
  exists s, x !! "content" = Some (VStr s) /\ s <> [].
Proof.
  unfold termination_lambda, get.
  destruct (x !! "content") as [[|s|[]]|]; simpl; try discriminate.
  destruct s; [discriminate|]. intros _. eexists. split; [reflexivity | discriminate].
Qed.

(** Sample runs: trailing no-break and em spaces are trimmed, the dotless i
    and the long s count as I and S, a trailing full stop or zero-width
    space keeps the lambda from firing. *)
Example termination_lambda_samples :
  fires (termination_lambda "##TERMINATE##"
           {[ "content" := VStr (of_string "Done ##terminate##" ++ [160; 8195; 10]%N) ]})
  = true
  /\ fires (termination_lambda "##TERMINATE##"
              {[ "content" := VStr (of_string "##TERM" ++ [305%N] ++ of_string "NATE##") ]})
     = true
  /\ fires (termination_lambda "##TERMINATE SUBTASK##"
              {[ "content" :=
                   VStr (of_string "##terminate " ++ [383%N] ++ of_string "ubtask##") ]})
     = true
  /\ fires (termination_lambda "##TERMINATE##" {[ "content" := VStr "##TERMINATE##." ]})
     = false
  /\ fires (termination_lambda "##TERMINATE##"
              {[ "content" := VStr (of_string "##TERMINATE##" ++ [8203%N]) ]})
     = false.
Proof. vm_compute. repeat split. Qed.

(** A string that ends with a run equal to the marker up to case and then
    whitespace, given by boolean tests. *)
Lemma ends_with_marker_intro (sentinel : string) (pre tail ws : pystr) :
  forallb isspace ws = true ->
  length tail = length (of_string sentinel) ->
  forallb (fun cm => same_letterb cm.1 cm.2) (combine tail (of_string sentinel)) = true ->
  ends_with_marker sentinel (pre ++ tail ++ ws).
Proof.
  intros Hws Hlen Htail. exists pre, tail, ws. split; [reflexivity|]. split.
  - induction ws as [|c ws IH]; [constructor|].
    simpl in Hws. apply andb_true_iff in Hws as [Hc Hws].
    constructor; [now apply isspace_whitespace | auto].
  - revert Hlen Htail. generalize (of_string sentinel). intros M. revert M.
    induction tail as [|c t IH]; intros [|m M] Hlen Htail; try discriminate.
    + constructor.
    + simpl in Htail. apply andb_true_iff in Htail as [Hcm Htail].
      constructor; [now apply same_letterb_spec|].
      apply IH; [now injection Hlen | assumption].
Qed.

(** ** Registry construction *)

Section Registry.

Variables user_prompt executor_prompt : string.
Variable B : option (list config) -> agent_obj -> agent_obj.
Variable P : option (list config) -> agent_obj.

Abbreviation initialize_loop := (initialize_loop B P).
Abbreviation initialize_agents := (__initialize_agents user_prompt executor_prompt B P).

Lemma remove_first_Some x (l : list string) :
  x ∈ l -> exists l', remove_first x l = Some l'.
Proof.
  induction l as [|y l IH]; intros Hin.
  - inversion Hin.
  - simpl. destruct (String.eqb_spec y x) as [->|Hne]; [eauto|].
    destruct IH as [l' ->]; [|simpl; eauto].
    apply elem_of_cons in Hin as [->|]; [contradiction | assumption].
Qed.

Lemma remove_first_None x (l : list string) :
  x ∉ l -> remove_first x l = None.
Proof.
  induction l as [|y l IH]; intros Hin; [reflexivity|]. simpl.
  apply not_elem_of_cons in Hin as [Hne Hin].
  destruct (String.eqb_spec y x) as [->|_]; [contradiction|].
  now rewrite IH.
Qed.

(** Removing the first [x] keeps every other element, and every element
    kept was there. *)
Lemma remove_first_elem x y (l l' : list string) :
  remove_first x l = Some l' -> y <> x -> (y ∈ l' <-> y ∈ l).
Proof.
  revert l'. induction l as [|z l IH]; intros l' Hr Hne; [discriminate|].
  simpl in Hr. destruct (String.eqb_spec z x) as [->|Hzx].
  - injection Hr as <-. rewrite elem_of_cons. intuition congruence.
  - destruct (remove_first x l) as [l1|] eqn:E; [|discriminate].
    injection Hr as <-. rewrite !elem_of_cons, (IH l1); tauto.
Qed.

Lemma remove_first_subset x y (l l' : list string) :
  remove_first x l = Some l' -> y ∈ l' -> y ∈ l.
Proof.
  revert l'. induction l as [|z l IH]; intros l' Hr Hin; [discriminate|].
  simpl in Hr. destruct (String.eqb z x).
  - injection Hr as <-. now apply elem_of_cons; right.
  - destruct (remove_first x l) as [l1|] eqn:E; [|discriminate].
    injection Hr as <-. apply elem_of_cons in Hin as [->|Hin].
    + apply elem_of_cons; now left.
    + apply elem_of_cons; right. eauto.
Qed.

Lemma bool_decide_cons_ne (x y : string) (l : list string) :
  x <> y -> bool_decide (x ∈ y :: l) = bool_decide (x ∈ l).
Proof.
  intros Hne. apply bool_decide_ext. rewrite elem_of_cons. tauto.
Qed.

(** *** The loop *)

(** The loop reads the instance and changes nothing. *)
Lemma initialize_loop_state ex (l : list string) m st :
  (initialize_loop ex l m st).2 = st.
Proof.
  revert m. induction l as [|a l IH]; intros m; [reflexivity|].
  simpl. destruct (String.eqb a "browser_nav_agent"); [apply IH|].
  destruct (String.eqb a "planner_agent"); [apply IH | reflexivity].
Qed.

(** It fails at the first entry that is neither the navigator nor the
    planner. *)
Lemma initialize_loop_unknown ex (l : list string) m st :
  (exists a, a ∈ l /\ a <> "browser_nav_agent" /\ a <> "planner_agent") ->
  exists a, a ∈ l /\ a <> "browser_nav_agent" /\ a <> "planner_agent"
            /\ (initialize_loop ex l m st).1 = Raise (UnknownRole a).
Proof.
  revert m. induction l as [|b l IH]; intros m (a & Hin & Hn & Hp).
  - inversion Hin.
  - simpl.
    destruct (String.eqb_spec b "browser_nav_agent") as [->|Hbn];
      [|destruct (String.eqb_spec b "planner_agent") as [->|Hbp]].
    + apply elem_of_cons in Hin as [->|Hin]; [contradiction|].
      destruct (IH (<["browser_nav_agent":=reset (B (config_list (self st)) ex)]> m))
        as (a' & ? & ? & ? & ?); [eauto|].
      exists a'. rewrite elem_of_cons. auto.
    + apply elem_of_cons in Hin as [->|Hin]; [contradiction|].
      destruct (IH (<["planner_agent":=reset (P (config_list (self st)))]> m))
        as (a' & ? & ? & ? & ?); [eauto|].
      exists a'. rewrite elem_of_cons. auto.
    + exists b. rewrite elem_of_cons. auto.
Qed.

(** When it succeeds, it has added exactly the navigator and the planner
    that the list names, the navigator being built on the executor. *)
Lemma initialize_loop_success ex (l : list string) m m' st :
  (initialize_loop ex l m st).1 = Return m' ->
  (forall a, a ∈ l -> a = "browser_nav_agent" \/ a = "planner_agent")
  /\ (forall k, k <> "browser_nav_agent" -> k <> "planner_agent" -> m' !! k = m !! k)
  /\ m' !! "browser_nav_agent" =
       (if bool_decide ("browser_nav_agent" ∈ l)
        then Some (B (config_list (self st)) ex) else m !! "browser_nav_agent")
  /\ m' !! "planner_agent" =
       (if bool_decide ("planner_agent" ∈ l)
        then Some (P (config_list (self st))) else m !! "planner_agent").
Proof.
  revert m. induction l as [|b l IH]; intros m Hrun.
  - injection Hrun as <-. repeat split; try reflexivity.
    intros a Ha. inversion Ha.
  - simpl in Hrun.
    destruct (String.eqb_spec b "browser_nav_agent") as [->|Hbn];
      [|destruct (String.eqb_spec b "planner_agent") as [->|Hbp]; [|discriminate]];
      apply IH in Hrun as (Hall & Hother & Hnav & Hpl); unfold reset in *;
      (split; [|split; [|split]]).
    + intros a [->|Ha]%elem_of_cons; auto.
    + intros k Hk1 Hk2. rewrite Hother by assumption. now rewrite lookup_insert_ne.
    + rewrite (bool_decide_eq_true_2 ("browser_nav_agent" ∈ _ :: _))
        by (apply elem_of_cons; now left).
      rewrite Hnav, lookup_insert_eq.
      destruct (bool_decide ("browser_nav_agent" ∈ l)); reflexivity.
    + rewrite Hpl, lookup_insert_ne by done. now rewrite bool_decide_cons_ne.
    + intros a [->|Ha]%elem_of_cons; auto.
    + intros k Hk1 Hk2. rewrite Hother by assumption. now rewrite lookup_insert_ne.
    + rewrite Hnav, lookup_insert_ne by done. now rewrite bool_decide_cons_ne.
    + rewrite (bool_decide_eq_true_2 ("planner_agent" ∈ _ :: _))
        by (apply elem_of_cons; now left).
      rewrite Hpl, lookup_insert_eq.
      destruct (bool_decide ("planner_agent" ∈ l)); reflexivity.
Qed.

(** *** [__initialize_agents] *)

Lemma with_list_self ref l st : self (with_list ref l st) = self st.
Proof. reflexivity. Qed.

Lemma with_list_lookup ref l st (old : list string) :
  lists (proc st) !! ref = Some old ->
  lists (proc (with_list ref l st)) !! ref = Some l.
Proof.
  intros H. simpl. apply list_lookup_insert_eq. eapply lookup_lt_Some, H.
Qed.

Lemma with_list_lookup_ne ref ref' l st :
  ref <> ref' ->
  lists (proc (with_list ref l st)) !! ref' = lists (proc st) !! ref'.
Proof. intros H. simpl. now apply list_lookup_insert_ne. Qed.

(** What [__initialize_agents] does, step by step, on the list [needed]
    held at [ref]. *)
Lemma initialize_agents_run ref st (needed : list string) :
  lists (proc st) !! ref = Some needed ->
  initialize_agents ref st =
    if bool_decide ("user_proxy" ∈ needed) then
      match remove_first "user_proxy" needed with
      | Some l1 =>
          match remove_first "browser_nav_executor" l1 with
          | Some l2 =>
              initialize_loop
                (new_agent (browser_nav_executor_descriptor executor_prompt
                              (number_of_rounds (self st))))
                l2 (base_map user_prompt executor_prompt (number_of_rounds (self st)))
                (with_list ref l2 (with_list ref l1 st))
          | None =>
              (Raise (ValueError "list.remove(x): x not in list"), with_list ref l1 st)
          end
      | None => (Raise (ValueError "list.remove(x): x not in list"), st)
      end
    else (Raise MissingRequiredRole, st).
Proof.
  intros Href.
  unfold __initialize_agents, bind, read_list, gets at 1. rewrite Href. simpl.
  destruct (bool_decide ("user_proxy" ∈ needed)); [|reflexivity].
  unfold list_remove, bind, read_list, gets. simpl. rewrite Href. simpl.
  destruct (remove_first "user_proxy" needed) as [l1|]; [|reflexivity].
  simpl. rewrite list_lookup_insert_eq by (eapply lookup_lt_Some, Href). simpl.
  destruct (remove_first "browser_nav_executor" l1) as [l2|]; [|reflexivity].
  simpl. rewrite list_lookup_insert_eq
    by (rewrite length_insert; eapply lookup_lt_Some, Href).
  reflexivity.
Qed.

Lemma remove_first_NoDup x (l l' : list string) :
  NoDup l -> remove_first x l = Some l' -> x ∉ l'.
Proof.
  revert l'. induction l as [|y l IH]; intros l' Hnd Hr; [discriminate|].
  apply NoDup_cons in Hnd as [Hy Hnd]. simpl in Hr.
  destruct (String.eqb_spec y x) as [->|Hne].
  - now injection Hr as <-.
  - destruct (remove_first x l) as [l1|] eqn:Hl; [|discriminate].
    injection Hr as <-. apply not_elem_of_cons. split; [congruence | eauto].
Qed.

(** The loop's outcome depends on the state through the instance only. *)
Lemma initialize_loop_instance ex (l : list string) m st st' :
  self st = self st' ->
  (initialize_loop ex l m st).1 = (initialize_loop ex l m st').1.
Proof.
  intros Hself. revert m. induction l as [|a l IH]; intros m; [reflexivity|].
  simpl.
  destruct (String.eqb a "browser_nav_agent");
    [|destruct (String.eqb a "planner_agent"); [|reflexivity]];
    unfold __create_browser_nav_agent, __create_planner_agent, bind, gets, ret;
    simpl; rewrite Hself; apply IH.
Qed.

(** A dangling reference reads as the empty list. *)
Lemma initialize_agents_dangling ref st :
  lists (proc st) !! ref = None ->
  initialize_agents ref st = (Raise MissingRequiredRole, st).
Proof.
  intros Href. unfold __initialize_agents, bind, read_list, gets at 1.
  rewrite Href. reflexivity.
Qed.

(** [__initialize_agents] never assigns to the instance. *)
Lemma initialize_agents_self ref st : self (initialize_agents ref st).2 = self st.
Proof.
  destruct (lists (proc st) !! ref) as [needed|] eqn:Href;
    [|now rewrite initialize_agents_dangling].
  rewrite (initialize_agents_run _ _ _ Href).
  destruct (bool_decide _); [|reflexivity].
  destruct (remove_first _ needed) as [l1|]; [|reflexivity].
  destruct (remove_first _ l1) as [l2|]; [|reflexivity].
  now rewrite initialize_loop_state.
Qed.

(** A successful run went through both removals and the whole loop. *)
Lemma initialize_agents_success ref st (needed : list string) m :
  lists (proc st) !! ref = Some needed ->
  (initialize_agents ref st).1 = Return m ->
  exists l1 l2,
    remove_first "user_proxy" needed = Some l1
    /\ remove_first "browser_nav_executor" l1 = Some l2
    /\ (initialize_agents ref st).2 = with_list ref l2 (with_list ref l1 st)
    /\ (initialize_loop
          (new_agent (browser_nav_executor_descriptor executor_prompt
                        (number_of_rounds (self st))))
          l2 (base_map user_prompt executor_prompt (number_of_rounds (self st)))
          (with_list ref l2 (with_list ref l1 st))).1 = Return m.
Proof.
  intros Href. rewrite (initialize_agents_run _ _ _ Href).
  destruct (bool_decide _); [|discriminate].
  destruct (remove_first _ needed) as [l1|]; [|discriminate].
  destruct (remove_first _ l1) as [l2|] eqn:Hl2; [|discriminate].
  intros Hrun. exists l1, l2.
  split; [reflexivity|]. split; [assumption|]. split; [|assumption].
  apply initialize_loop_state.
Qed.

(** A list naming a role outside the closed set makes the construction
    fail, one way or another. *)
Lemma initialize_agents_unknown ref st (needed : list string) r :
  lists (proc st) !! ref = Some needed ->
  r ∈ needed -> r ∉ known_roles ->
  exists e, (initialize_agents ref st).1 = Raise e
    /\ ("user_proxy" ∉ needed -> e = MissingRequiredRole)
    /\ ("user_proxy" ∈ needed -> "browser_nav_executor" ∈ needed ->
        exists a, a ∈ needed /\ a <> "browser_nav_agent" /\ a <> "planner_agent"
                  /\ e = UnknownRole a).
Proof.
  intros Href Hin Hunknown.
  assert (Hr : r <> "user_proxy" /\ r <> "browser_nav_executor"
               /\ r <> "planner_agent" /\ r <> "browser_nav_agent").
  { unfold known_roles in Hunknown. rewrite !not_elem_of_cons in Hunknown. tauto. }
  destruct Hr as (Hr1 & Hr2 & Hr3 & Hr4).
  rewrite (initialize_agents_run _ _ _ Href).
  case_bool_decide as Hup.
  - destruct (remove_first_Some _ _ Hup) as [l1 Hl1]. rewrite Hl1.
    destruct (remove_first "browser_nav_executor" l1) as [l2|] eqn:Hl2.
    + assert (Hin2 : r ∈ l2).
      { apply (remove_first_elem _ r _ _ Hl2); [assumption|].
        now apply (remove_first_elem _ r _ _ Hl1). }
      edestruct (initialize_loop_unknown) as (a & Ha & Hn & Hp & Hrun);
        [exists r; eauto|].
      eexists. split; [exact Hrun|]. split; [contradiction|].
      intros _ _. exists a. repeat split; try assumption.
      eapply remove_first_subset; [exact Hl1|].
      eapply remove_first_subset; [exact Hl2 | exact Ha].
    + eexists. split; [reflexivity|]. split; [contradiction|].
      intros _ Hex. exfalso.
      assert (Hex1 : "browser_nav_executor" ∈ l1)
        by (apply (remove_first_elem _ _ _ _ Hl1); [discriminate | assumption]).
      destruct (remove_first_Some _ _ Hex1) as [? ?]. congruence.
  - eexists. split; [reflexivity|]. split; [reflexivity | contradiction].
Qed.

(** *** [create] *)

Section Create.

Variable load_dotenv : gmap string string -> gmap string string.

(** The configuration step either misses the API key or goes through; it
    leaves the list objects, the registry and the round budget alone. *)
Lemma create_config_list_run st :
  exists r st', create_config_list load_dotenv st = (r, st')
    /\ (r = Return tt \/ r = Raise (KeyError "OPENAI_API_KEY"))
    /\ lists (proc st') = lists (proc st)
    /\ agents_map (self st') = agents_map (self st)
    /\ number_of_rounds (self st') = number_of_rounds (self st).
Proof.
  unfold create_config_list, bind, modify, environ_setitem, environ_getitem,
    dump_to_temp_file, config_list_from_json, gets, getitem. simpl.
  destruct (_ !! "OPENAI_API_KEY") as [key|]; simpl; eauto 10.
Qed.

(** When [__initialize_agents] fails on the caller's list, so does
    [create], and the instance is left without a registry. *)
Lemma create_initialize_fails ref n p (needed : list string) :
  lists p !! ref = Some needed ->
  (forall st, lists (proc st) !! ref = Some needed ->
              returned (initialize_agents ref st).1 = false) ->
  exists e st',
    create user_prompt executor_prompt B P load_dotenv (Some ref) n p = (Raise e, st')
    /\ agents_map (self st') = None.
Proof.
  intros Href Hfail. unfold create, create_body, bind, ret.
  destruct (create_config_list_run {| self := init n; proc := p |})
    as (r & st' & Hrun & [-> | ->] & Hlists & Hmap & _); rewrite Hrun; [|eauto].
  specialize (Hfail st'). rewrite Hlists in Hfail. specialize (Hfail Href).
  pose proof (initialize_agents_self ref st') as Hself.
  destruct (initialize_agents ref st') as [[m|e] st'']; [discriminate|].
  exists e, st''. split; [reflexivity|]. simpl in Hself. now rewrite Hself, Hmap.
Qed.

End Create.

End Registry.

(** ** The claims on registry construction *)

(** C2. For every list of requested roles that does not contain
    [user_proxy], [__initialize_agents] raises the missing-role
    [ValueError]; no agent map is produced and the state is left as it
    was. *)
Theorem initialize_agents_missing_user_proxy
    (U E : string) (B : option (list config) -> agent_obj -> agent_obj)
    (P : option (list config) -> agent_obj)
    (ref : nat) (st : state) (needed : list string) :
  lists (proc st) !! ref = Some needed ->
  "user_proxy" ∉ needed ->
  __initialize_agents U E B P ref st = (Raise MissingRequiredRole, st).
Proof.
  intros Href Hnot. rewrite (initialize_agents_run _ _ _ _ _ _ _ Href).
  now rewrite bool_decide_eq_false_2.
Qed.

Lemma initialize_agents_missing_user_proxy_witness :
  Sample.initialize_agents 0 (Sample.state_with [["planner_agent"; "browser_nav_agent"]])
  = (Raise MissingRequiredRole,
     Sample.state_with [["planner_agent"; "browser_nav_agent"]]).
Proof.
  apply (initialize_agents_missing_user_proxy _ _ _ _ 0 _
           ["planner_agent"; "browser_nav_agent"]).
  - reflexivity.
  - apply (bool_decide_unpack _). vm_compute. exact I.
Defined.

(** C3, as the code has it.  A list of requested roles that names a role
    outside the closed set makes [__initialize_agents] raise, and [create]
    with it: the instance is left with [agents_map] unset.  The error is
    the unknown-role one, naming an entry that is neither the navigator nor
    the planner, when the list holds both [user_proxy] and
    [browser_nav_executor]; it is the missing-role one when the list lacks
    [user_proxy]. *)
Theorem unknown_role_fails
    (U E : string) (B : option (list config) -> agent_obj -> agent_obj)
    (P : option (list config) -> agent_obj)
    (load_dotenv : gmap string string -> gmap string string)
    (ref : nat) (st : state) (p : process) (n : Z) (needed : list string) (r : string) :
  lists (proc st) !! ref = Some needed ->
  lists p !! ref = Some needed ->
  r ∈ needed -> r ∉ known_roles ->
  (exists e, (__initialize_agents U E B P ref st).1 = Raise e
     /\ ("user_proxy" ∉ needed -> e = MissingRequiredRole)
     /\ ("user_proxy" ∈ needed -> "browser_nav_executor" ∈ needed ->
         exists a, a ∈ needed /\ a <> "browser_nav_agent" /\ a <> "planner_agent"
                   /\ e = UnknownRole a))
  /\ (exists e st', create U E B P load_dotenv (Some ref) n p = (Raise e, st')
        /\ agents_map (self st') = None).
Proof.
  intros Hst Hp Hin Hunknown. split.
  - eapply initialize_agents_unknown; eassumption.
  - eapply create_initialize_fails; [exact Hp|].
    intros st0 Hst0.
    destruct (initialize_agents_unknown U E B P ref st0 needed r Hst0 Hin Hunknown)
      as (e & -> & _).
    reflexivity.
Qed.

Lemma unknown_role_fails_witness :
  (exists e, (Sample.initialize_agents 0
                (Sample.state_with [["user_proxy"; "browser_nav_executor"; "search_agent"]])).1
             = Raise e
     /\ ("user_proxy" ∉ ["user_proxy"; "browser_nav_executor"; "search_agent"]
         -> e = MissingRequiredRole)
     /\ ("user_proxy" ∈ ["user_proxy"; "browser_nav_executor"; "search_agent"] ->
         "browser_nav_executor" ∈ ["user_proxy"; "browser_nav_executor"; "search_agent"] ->
         exists a, a ∈ ["user_proxy"; "browser_nav_executor"; "search_agent"]
                   /\ a <> "browser_nav_agent" /\ a <> "planner_agent"
                   /\ e = UnknownRole a))
  /\ (exists e st',
        Sample.create_with (Some 0)
          (Sample.process_with [["user_proxy"; "browser_nav_executor"; "search_agent"]])
        = (Raise e, st')
        /\ agents_map (self st') = None).
Proof.
  apply (unknown_role_fails _ _ _ _ _ 0 _ _ 50
           ["user_proxy"; "browser_nav_executor"; "search_agent"] "search_agent").
  - reflexivity.
  - reflexivity.
  - apply (bool_decide_unpack _). vm_compute. exact I.
  - apply (bool_decide_unpack _). vm_compute. exact I.
Defined.

(** C3 as stated fails: on a list that names an unknown role and lacks
    [user_proxy], the error raised is the missing-role one, not the
    unknown-role one. *)
Lemma unknown_role_reported_as_missing :
  ("search_agent" ∈ ["search_agent"])
  /\ ("search_agent" ∉ known_roles)
  /\ (Sample.initialize_agents 0 (Sample.state_with [["search_agent"]])).1
     = Raise MissingRequiredRole
  /\ is_UnknownRole MissingRequiredRole = false.
Proof.
  split; [apply (bool_decide_unpack _); vm_compute; exact I|].
  split; [apply (bool_decide_unpack _); vm_compute; exact I|].
  split; reflexivity.
Qed.

(** C7, as the code has it.  Every registry that [__initialize_agents]
    returns holds the executor, requested or not; it holds the navigator
    exactly when [browser_nav_agent] is in the list, and that navigator is
    built on the executor of the same registry. *)
Theorem executor_always_navigator_on_request
    (U E : string) (B : option (list config) -> agent_obj -> agent_obj)
    (P : option (list config) -> agent_obj)
    (ref : nat) (st : state) (needed : list string) (m : gmap string agent_obj) :
  lists (proc st) !! ref = Some needed ->
  (__initialize_agents U E B P ref st).1 = Return m ->
  exists executor,
    m !! "browser_nav_executor" = Some executor
    /\ (is_Some (m !! "browser_nav_agent") <-> "browser_nav_agent" ∈ needed)
    /\ ("browser_nav_agent" ∈ needed ->
        m !! "browser_nav_agent" = Some (B (config_list (self st)) executor)).
Proof.
  intros Href Hrun.
  destruct (initialize_agents_success U E B P ref st needed m Href Hrun)
    as (l1 & l2 & Hl1 & Hl2 & _ & Hloop).
  apply initialize_loop_success in Hloop as (_ & Hother & Hnav & _).
  assert (Hmem : "browser_nav_agent" ∈ l2 <-> "browser_nav_agent" ∈ needed).
  { rewrite (remove_first_elem _ _ _ _ Hl2) by discriminate.
    apply (remove_first_elem _ _ _ _ Hl1). discriminate. }
  eexists. split; [|split].
  - rewrite Hother by discriminate. unfold base_map. apply lookup_insert_eq.
  - rewrite Hnav. simpl. case_bool_decide as Hin.
    + split; [tauto | eauto].
    + unfold base_map. rewrite !lookup_insert_ne, lookup_empty by discriminate.
      split; [intros [? ?]; discriminate | tauto].
  - intros Hin. rewrite Hnav. simpl.
    rewrite bool_decide_eq_true_2 by tauto. reflexivity.
Qed.

Lemma executor_always_navigator_on_request_witness :
  exists executor,
    base_map "You are the user." "You execute." 50 !! "browser_nav_executor" = Some executor
    /\ (is_Some (base_map "You are the user." "You execute." 50 !! "browser_nav_agent")
        <-> "browser_nav_agent" ∈ ["user_proxy"; "browser_nav_executor"])
    /\ ("browser_nav_agent" ∈ ["user_proxy"; "browser_nav_executor"] ->
        base_map "You are the user." "You execute." 50 !! "browser_nav_agent"
        = Some (Sample.navigator None executor)).
Proof.
  apply (executor_always_navigator_on_request
           "You are the user." "You execute." Sample.navigator Sample.planner
           0 (Sample.state_with [["user_proxy"; "browser_nav_executor"]])
           ["user_proxy"; "browser_nav_executor"]).
  - reflexivity.
  - reflexivity.
Defined.

(** C7 as stated fails: asked for the initiator and the executor only, the
    construction returns a registry with the executor and without the
    navigator. *)
Lemma executor_without_navigator :
  match (Sample.initialize_agents 0
           (Sample.state_with [["user_proxy"; "browser_nav_executor"]])).1 with
  | Return m =>
      is_Some (m !! "browser_nav_executor") /\ m !! "browser_nav_agent" = None
  | Raise _ => False
  end.
Proof. vm_compute. split; [eauto | reflexivity]. Qed.

(** C9, as the code has it.  Two constructions on the same instance, from
    equal role lists held in two distinct list objects, succeed alike and
    return equal registries: same role prompts, same termination
    predicates, same round budgets, the initiator and the executor being
    those of the instance's configuration.  The construction leaves the
    instance alone but not its argument: it removes the first [user_proxy]
    and the first [browser_nav_executor] from the caller's list, so that a
    second construction from the same list object, when the list has no
    duplicates, fails for want of [user_proxy]. *)
Theorem initialize_agents_twice
    (U E : string) (B : option (list config) -> agent_obj -> agent_obj)
    (P : option (list config) -> agent_obj)
    (ref1 ref2 : nat) (st : state) (needed : list string) (m : gmap string agent_obj) :
  ref1 <> ref2 ->
  lists (proc st) !! ref1 = Some needed ->
  lists (proc st) !! ref2 = Some needed ->
  (__initialize_agents U E B P ref1 st).1 = Return m ->
  (__initialize_agents U E B P ref2 (__initialize_agents U E B P ref1 st).2).1 = Return m
  /\ m !! "user_proxy"
     = Some (new_agent (user_proxy_descriptor U (number_of_rounds (self st))))
  /\ m !! "browser_nav_executor"
     = Some (new_agent (browser_nav_executor_descriptor E (number_of_rounds (self st))))
  /\ self (__initialize_agents U E B P ref1 st).2 = self st
  /\ (exists l1 l2,
        remove_first "user_proxy" needed = Some l1
        /\ remove_first "browser_nav_executor" l1 = Some l2
        /\ lists (proc (__initialize_agents U E B P ref1 st).2) !! ref1 = Some l2)
  /\ (NoDup needed ->
      (__initialize_agents U E B P ref1 (__initialize_agents U E B P ref1 st).2).1
      = Raise MissingRequiredRole).
Proof.
  intros Hne Href1 Href2 Hrun.
  destruct (initialize_agents_success U E B P ref1 st needed m Href1 Hrun)
    as (l1 & l2 & Hl1 & Hl2 & Hst & Hloop).
  rewrite Hst.
  assert (Hat1 : lists (proc (with_list ref1 l2 (with_list ref1 l1 st))) !! ref1 = Some l2).
  { eapply with_list_lookup, with_list_lookup, Href1. }
  assert (Hat2 : lists (proc (with_list ref1 l2 (with_list ref1 l1 st))) !! ref2
                 = Some needed).
  { now rewrite !with_list_lookup_ne. }
  pose proof (initialize_loop_success _ _ _ _ _ _ _ Hloop) as (_ & Hother & _ & _).
  split; [|split; [|split; [|split; [|split]]]].
  - rewrite (initialize_agents_run _ _ _ _ _ _ _ Hat2).
    destruct (bool_decide _) eqn:Hup.
    + rewrite Hl1, Hl2. rewrite <- Hloop. simpl.
      apply initialize_loop_instance. reflexivity.
    + rewrite (initialize_agents_run _ _ _ _ _ _ _ Href1), Hup in Hrun. discriminate.
  - rewrite Hother by discriminate. unfold base_map.
    rewrite lookup_insert_ne by discriminate. apply lookup_insert_eq.
  - rewrite Hother by discriminate. unfold base_map. apply lookup_insert_eq.
  - reflexivity.
  - exists l1, l2. auto.
  - intros Hnd. rewrite (initialize_agents_run _ _ _ _ _ _ _ Hat1).
    rewrite bool_decide_eq_false_2; [reflexivity|].
    intros Hin. eapply (remove_first_NoDup _ _ _ Hnd Hl1).
    eapply remove_first_subset; eassumption.
Qed.

Lemma initialize_agents_twice_witness :
  (Sample.initialize_agents 1
     (Sample.initialize_agents 0
        (Sample.state_with [default_agents_needed; default_agents_needed])).2).1
  = (Sample.initialize_agents 0
       (Sample.state_with [default_agents_needed; default_agents_needed])).1
  /\ (Sample.initialize_agents 0
        (Sample.initialize_agents 0
           (Sample.state_with [default_agents_needed; default_agents_needed])).2).1
     = Raise MissingRequiredRole.
Proof.
  destruct (initialize_agents_twice
              "You are the user." "You execute." Sample.navigator Sample.planner
              0 1 (Sample.state_with [default_agents_needed; default_agents_needed])
              default_agents_needed
              (<["planner_agent" := Sample.planner None]>
                 (<["browser_nav_agent" :=
                      Sample.navigator None
                        (new_agent (browser_nav_executor_descriptor "You execute." 50))]>
                    (base_map "You are the user." "You execute." 50))))
    as (Hsecond & _ & _ & _ & _ & Hsame).
  - lia.
  - reflexivity.
  - reflexivity.
  - reflexivity.
  - split.
    + exact Hsecond.
    + apply Hsame. apply (bool_decide_unpack _). vm_compute. exact I.
Defined.

(** C9 as stated fails: a construction changes the list it is given, and a
    second [create] from the same list object does not succeed.  It also
    leaves a temporary file behind. *)
Lemma create_twice_same_list :
  returned (Sample.create_with (Some 0) (Sample.process_with [default_agents_needed])).1
  = true
  /\ lists (proc (Sample.create_with (Some 0)
                    (Sample.process_with [default_agents_needed])).2)
     = [["planner_agent"; "browser_nav_agent"]]
  /\ length (temp_files (proc (Sample.create_with (Some 0)
                                 (Sample.process_with [default_agents_needed])).2)) = 1
  /\ (Sample.create_with (Some 0)
        (proc (Sample.create_with (Some 0)
                 (Sample.process_with [default_agents_needed])).2)).1
     = Raise MissingRequiredRole.
Proof. repeat split; vm_compute; reflexivity. Qed.

(** ** The claims on the termination predicates *)

(** C6. The predicate of the agent that [__create_user_proxy_agent]
    builds fires on a message whose content is the string [s] exactly when
    [s.rstrip().upper()] ends with [##TERMINATE##], that is, exactly when
    [s] is some text, then a run of characters equal to the marker up to
    case, then only whitespace.  Whitespace is Python's: Unicode's
    White_Space and the separators FS to US.  A character equals a capital
    letter of the marker up to case when it is that letter, its ASCII small
    letter or, for I, the dotless i, which [upper] also maps to I. *)
Theorem user_proxy_terminates_on_marker
    (U : string) (st : state) (a : agent_obj) (x : message) (s : pystr) :
  (__create_user_proxy_agent U st).1 = Return a ->
  x !! "content" = Some (VStr s) ->
  exists f,
    is_termination_msg (descriptor a) = Some f
    /\ (fires (f x) = true <-> endswith (upper (rstrip s)) "##TERMINATE##" = true)
    /\ (fires (f x) = true <-> ends_with_marker "##TERMINATE##" s).
Proof.
  intros Ha Hx. injection Ha as <-. eexists. split; [reflexivity|].
  assert (Hne : "##TERMINATE##" <> "") by discriminate.
  rewrite (termination_lambda_str "##TERMINATE##" Hne x s Hx).
  split; [reflexivity|].
  apply endswith_marker. vm_compute. reflexivity.
Qed.

Lemma user_proxy_terminates_on_marker_witness :
  exists f,
    is_termination_msg (user_proxy_descriptor "You are the user." 50) = Some f
    /\ fires (f {[ "content" := VStr "All done. ##terminate##  " ]}) = true.
Proof.
  assert (Hx : ({[ "content" := VStr "All done. ##terminate##  " ]} : message)
               !! "content" = Some (VStr "All done. ##terminate##  "))
    by reflexivity.
  destruct (user_proxy_terminates_on_marker "You are the user." (Sample.state_with [])
              (new_agent (user_proxy_descriptor "You are the user." 50))
              {[ "content" := VStr "All done. ##terminate##  " ]}
              "All done. ##terminate##  " eq_refl Hx)
    as (f & Hf & _ & Hfires).
  exists f. split; [exact Hf|].
  apply Hfires.
  apply (ends_with_marker_intro "##TERMINATE##" "All done. " "##terminate##" "  ");
    reflexivity.
Defined.

(** C10. A message without a content field, or whose content is the empty
    string, fires neither the initiator's nor the executor's termination
    predicate. *)
Theorem empty_content_never_terminates
    (U E : string) (st : state) (initiator executor : agent_obj) (x : message) :
  (__create_user_proxy_agent U st).1 = Return initiator ->
  (__create_browser_nav_executor_agent E st).1 = Return executor ->
  x !! "content" = None \/ x !! "content" = Some (VStr "") ->
  exists f g,
    is_termination_msg (descriptor initiator) = Some f
    /\ is_termination_msg (descriptor executor) = Some g
    /\ fires (f x) = false
    /\ fires (g x) = false.
Proof.
  intros Hi He Hx. injection Hi as <-. injection He as <-.
  do 2 eexists. split; [reflexivity|]. split; [reflexivity|].
  split; apply termination_lambda_empty; assumption.
Qed.

Lemma empty_content_never_terminates_witness :
  exists f g,
    is_termination_msg (user_proxy_descriptor "You are the user." 50) = Some f
    /\ is_termination_msg (browser_nav_executor_descriptor "You execute." 50) = Some g
    /\ fires (f {[ "role" := VStr "assistant" ]}) = false
    /\ fires (g {[ "role" := VStr "assistant" ]}) = false.
Proof.
  apply (empty_content_never_terminates "You are the user." "You execute."
           (Sample.state_with [])
           (new_agent (user_proxy_descriptor "You are the user." 50))
           (new_agent (browser_nav_executor_descriptor "You execute." 50))).
  - reflexivity.
  - reflexivity.
  - left. reflexivity.
Defined.

(** ** Rendering the prompt *)

Section Template.

Variable mapping : gmap string string.

Lemma emit_emit a b r : emit a (emit b r) = emit (a +:+ b) r.
Proof. destruct r; simpl; [now rewrite append_assoc | reflexivity]. Qed.

Lemma emit_nil r : emit "" r = r.
Proof. now destruct r. Qed.

(** Text without a dollar sign is copied. *)
Lemma scan_literal lit rest :
  no_dollar lit = true ->
  scan mapping Text (lit +:+ rest) = emit lit (scan mapping Text rest).
Proof.
  induction lit as [|c lit IH]; intros Hlit.
  - simpl. now rewrite emit_nil.
  - apply andb_true_iff in Hlit as [Hc Hlit]. simpl.
    destruct (Ascii.eqb c "$"); [discriminate|].
    now rewrite (IH Hlit), emit_emit.
Qed.

(** A name ends where the text stops continuing it; its value is looked
    up and the scan goes on in plain text. *)
Lemma scan_named_end id rest :
  continues_name rest = false ->
  scan mapping (Named id) rest =
    result_bind (getitem mapping id) (fun v => emit v (scan mapping Text rest)).
Proof.
  destruct rest as [|c rest]; simpl; intros Hc.
  - destruct (getitem mapping id); simpl; [now rewrite append_nil_r | reflexivity].
  - now rewrite Hc.
Qed.

Lemma continues_name_append s t :
  continues_name s = false -> continues_name t = false ->
  continues_name (s +:+ t) = false.
Proof. destruct s; simpl; auto. Qed.

Lemma startswith_append n b : startswith (n +:+ b) n = true.
Proof.
  induction n as [|c n IH]; simpl; [reflexivity|].
  now rewrite Ascii.eqb_refl, IH.
Qed.

Lemma contains_append a n b : contains (a +:+ n +:+ b) n = true.
Proof.
  induction a as [|c a IH].
  - change (contains (n +:+ b) n = true).
    destruct (n +:+ b) eqn:E; simpl; rewrite <- E, startswith_append; reflexivity.
  - change (startswith (String c (a +:+ n +:+ b)) n || contains (a +:+ n +:+ b) n = true).
    rewrite IH. apply orb_true_r.
Qed.

End Template.

(** A template with the two placeholders and no other dollar sign is
    filled by plain concatenation. *)
Lemma substitute_two_placeholders pre mid post command segment :
  no_dollar pre = true -> no_dollar mid = true -> no_dollar post = true ->
  continues_name mid = false -> continues_name post = false ->
  substitute (pre +:+ "$command" +:+ mid +:+ "$current_url_prompt_segment" +:+ post)
    {[ "command" := command; "current_url_prompt_segment" := segment ]}
  = Return (pre +:+ command +:+ mid +:+ segment +:+ post).
Proof.
  intros Hpre Hmid Hpost Hcm Hcp. unfold substitute.
  rewrite (scan_literal _ pre _ Hpre).
  change (scan ?mp Text ("$command" +:+ ?r)) with (scan mp (Named "command") r).
  rewrite (scan_named_end _ "command" (mid +:+ "$current_url_prompt_segment" +:+ post))
    by (now apply continues_name_append).
  unfold getitem at 1. rewrite lookup_insert_eq. cbv beta iota delta [result_bind].
  rewrite (scan_literal _ mid _ Hmid).
  change (scan ?mp Text ("$current_url_prompt_segment" +:+ ?r))
    with (scan mp (Named "current_url_prompt_segment") r).
  rewrite (scan_named_end _ "current_url_prompt_segment" post) by assumption.
  unfold getitem at 1.
  rewrite lookup_insert_ne, lookup_singleton_eq by discriminate.
  cbv beta iota delta [result_bind].
  rewrite <- (append_nil_r post) at 1. rewrite (scan_literal _ post _ Hpost).
  simpl. now rewrite append_nil_r.
Qed.


(** ** The claims on [process_command] *)

(** C8, as the code has it.  With a command template made of text, the
    command placeholder, text, the context placeholder and text, the
    prompt is the concatenation of the texts, the command and the context
    segment.  The segment is [Current URL: <current_url>], and the prompt
    contains it, when [current_url] is given and is not the empty string;
    when [current_url] is absent or empty the segment is empty and nothing
    stands in its place. *)
Theorem prompt_context_segment
    (pre mid post command : string) (current_url : option string) :
  no_dollar pre = true -> no_dollar mid = true -> no_dollar post = true ->
  continues_name mid = false -> continues_name post = false ->
  (forall url, current_url = Some url -> url <> "" ->
     render_prompt (pre +:+ "$command" +:+ mid +:+ "$current_url_prompt_segment" +:+ post)
       command current_url
     = Return (pre +:+ command +:+ mid +:+ ("Current URL: " +:+ url) +:+ post)
     /\ contains (pre +:+ command +:+ mid +:+ ("Current URL: " +:+ url) +:+ post)
          ("Current URL: " +:+ url) = true)
  /\ (current_url = None \/ current_url = Some "" ->
      render_prompt (pre +:+ "$command" +:+ mid +:+ "$current_url_prompt_segment" +:+ post)
        command current_url
      = Return (pre +:+ command +:+ mid +:+ post)).
Proof.
  intros Hpre Hmid Hpost Hcm Hcp. unfold render_prompt.
  rewrite substitute_two_placeholders by assumption. split.
  - intros url -> Hurl. unfold current_url_prompt_segment.
    rewrite truthy_of_string.
    apply String.eqb_neq in Hurl. rewrite Hurl. split; [reflexivity|].
    rewrite <- (append_assoc pre command), <- (append_assoc (pre +:+ command) mid).
    apply contains_append.
  - intros [-> | ->]; reflexivity.
Qed.

Lemma prompt_context_segment_witness :
  (forall url, Some "https://example.com" = Some url -> url <> "" ->
     render_prompt Sample.template "click login" (Some "https://example.com")
     = Return (("Execute the user task " +:+ dquote) +:+ "click login"
                 +:+ (dquote +:+ " ") +:+ ("Current URL: " +:+ url) +:+ "")
     /\ contains (("Execute the user task " +:+ dquote) +:+ "click login"
                    +:+ (dquote +:+ " ") +:+ ("Current URL: " +:+ url) +:+ "")
          ("Current URL: " +:+ url) = true)
  /\ (Some "https://example.com" = None \/ Some "https://example.com" = Some "" ->
      render_prompt Sample.template "click login" (Some "https://example.com")
      = Return (("Execute the user task " +:+ dquote) +:+ "click login"
                  +:+ (dquote +:+ " ") +:+ "")).
Proof.
  apply (prompt_context_segment ("Execute the user task " +:+ dquote) (dquote +:+ " ") ""
           "click login" (Some "https://example.com")); reflexivity.
Defined.

(** C8 as stated fails: [current_url] given as the empty string is
    supplied, yet the prompt has no [Current URL: ] segment. *)
Lemma empty_url_renders_no_segment :
  match render_prompt Sample.template "click login" (Some "") with
  | Return prompt => contains prompt "Current URL: " = false
  | Raise _ => False
  end.
Proof. vm_compute. reflexivity. Qed.

(** C1, as the code has it.  Once the prompt is rendered,
    [process_command] returns normally when the chat does, and also when
    the chat raises [BadRequestError] (the backend's RequestRejected): that
    failure alone is caught, and logged with the command and the error
    text; the caller gets no error value.  Every other exception of the
    chat, the backend's Timeout and RateLimited among them, reaches the
    caller, as does the [ValueError] raised when the registry was never
    built. *)
Theorem process_command_catches_bad_request_only
    (template : string) (chat : agent_obj -> agent_obj -> string -> option exn)
    (command : string) (current_url : option string) (st : state) (prompt : string) :
  render_prompt template command current_url = Return prompt ->
  (agents_map (self st) = None ->
   (process_command template chat command current_url st).1
   = Raise (ValueError "Agents map is not initialized."))
  /\ (forall m initiator planner,
        agents_map (self st) = Some m ->
        m !! "user_proxy" = Some initiator ->
        m !! "planner_agent" = Some planner ->
        (chat initiator planner prompt = None ->
         (process_command template chat command current_url st).1 = Return tt)
        /\ (forall bre, chat initiator planner prompt = Some (BadRequestError bre) ->
              (process_command template chat command current_url st).1 = Return tt
              /\ log (proc (process_command template chat command current_url st).2)
                 = log (proc st)
                     ++ [("INFO", "Prompt for command: " +:+ prompt);
                         ("ERROR", "Unable to process command: " +:+ dquote +:+ command
                                     +:+ dquote +:+ ". " +:+ bre)])
        /\ (forall e, chat initiator planner prompt = Some e ->
              (forall bre, e <> BadRequestError bre) ->
              (process_command template chat command current_url st).1 = Raise e)).
Proof.
  intros Hprompt. unfold process_command, bind, lift, try_except_BadRequestError.
  rewrite Hprompt. simpl. split.
  - intros ->. reflexivity.
  - intros m initiator planner -> Hi Hp. unfold getitem. rewrite Hi, Hp. simpl.
    split; [|split].
    + intros ->. reflexivity.
    + intros bre ->. simpl. split; [reflexivity|]. now rewrite <- app_assoc.
    + intros e -> Hother. destruct e; try reflexivity.
      now destruct (Hother msg).
Qed.

Lemma process_command_catches_bad_request_only_witness :
  (process_command Sample.template (Sample.failing_backend (BadRequestError "too long"))
     "click login" None Sample.ready_state).1
  = Return tt
  /\ (process_command Sample.template (Sample.failing_backend (APITimeoutError "timed out"))
        "click login" None Sample.ready_state).1
     = Raise (APITimeoutError "timed out").
Proof.
  split.
  - destruct (process_command_catches_bad_request_only
                Sample.template (Sample.failing_backend (BadRequestError "too long"))
                "click login" None Sample.ready_state
                ("Execute the user task " +:+ dquote +:+ "click login" +:+ dquote +:+ " "))
      as [_ Hchat]; [reflexivity|].
    destruct (Hchat Sample.registry
                (new_agent (user_proxy_descriptor "You are the user." 50))
                (Sample.planner None) eq_refl eq_refl eq_refl) as (_ & Hbad & _).
    apply (Hbad "too long" eq_refl).
  - destruct (process_command_catches_bad_request_only
                Sample.template (Sample.failing_backend (APITimeoutError "timed out"))
                "click login" None Sample.ready_state
                ("Execute the user task " +:+ dquote +:+ "click login" +:+ dquote +:+ " "))
      as [_ Hchat]; [reflexivity|].
    destruct (Hchat Sample.registry
                (new_agent (user_proxy_descriptor "You are the user." 50))
                (Sample.planner None) eq_refl eq_refl eq_refl) as (_ & _ & Hother).
    apply (Hother (APITimeoutError "timed out") eq_refl). discriminate.
Defined.

(** C1 as stated fails: a chat that ends with the backend's RateLimited
    makes [process_command] raise it, and without a registry
    [process_command] raises a [ValueError]. *)
Lemma rate_limit_escapes_process_command :
  (process_command Sample.template (Sample.failing_backend (RateLimitError "429"))
     "click login" None Sample.ready_state).1
  = Raise (RateLimitError "429")
  /\ (process_command Sample.template (Sample.failing_backend (RateLimitError "429"))
        "click login" None (Sample.state_with [])).1
     = Raise (ValueError "Agents map is not initialized.").
Proof. split; vm_compute; reflexivity. Qed.

(** ** The delegation link *)

(** The link that [create] registers, between the executor and the given
    navigator. *)
Lemma create_success
    (U E : string) (B : option (list config) -> agent_obj -> agent_obj)
    (P : option (list config) -> agent_obj)
    (load_dotenv : gmap string string -> gmap string string)
    (agents_needed : option nat) (n : Z) (p : process) (w : AutogenWrapper) (st : state) :
  create U E B P load_dotenv agents_needed n p = (Return w, st) ->
  exists m navigator planner,
    m !! "user_proxy" = Some (new_agent (user_proxy_descriptor U n))
    /\ m !! "browser_nav_executor" = Some (new_agent (browser_nav_executor_descriptor E n))
    /\ m !! "browser_nav_agent" = Some navigator
    /\ m !! "planner_agent" = Some planner
    /\ agents_map w =
       Some (<["user_proxy" :=
                register_nested_chats (new_agent (user_proxy_descriptor U n))
                  [ {| sender := browser_nav_executor_descriptor E n;
                       recipient := descriptor navigator;
                       nested_message := nested_chat_message;
                       max_turns := 2;
                       summary_method := "last_msg" |} ]
                  (descriptor planner)]> m).
Proof.
  unfold create, create_body. unfold bind at 1.
  set (st0 := {| self := init n; proc := p |}).
  assert (Hfirst : exists ref st1,
             match agents_needed with
             | Some ref => ret ref
             | None => new_list default_agents_needed
             end st0 = (Return ref, st1)
             /\ number_of_rounds (self st1) = n).
  { destruct agents_needed; do 2 eexists; split; reflexivity. }
  destruct Hfirst as (ref & st1 & -> & Hn1).
  unfold bind at 1.
  destruct (create_config_list_run load_dotenv st1)
    as (r & st' & -> & [-> | ->] & _ & _ & Hn); [|discriminate].
  unfold bind at 1.
  pose proof (initialize_agents_self U E B P ref st') as Hself.
  destruct (__initialize_agents U E B P ref st') as [[m|e] st''] eqn:Hinit;
    [|discriminate].
  simpl in Hself.
  assert (Hm : m !! "user_proxy" = Some (new_agent (user_proxy_descriptor U n))
               /\ m !! "browser_nav_executor"
                  = Some (new_agent (browser_nav_executor_descriptor E n))).
  { destruct (lists (proc st') !! ref) as [needed|] eqn:Href.
    - assert (Hrun : (__initialize_agents U E B P ref st').1 = Return m)
        by now rewrite Hinit.
      destruct (initialize_agents_success U E B P ref st' needed m Href Hrun)
        as (l1 & l2 & _ & _ & _ & Hloop).
      apply initialize_loop_success in Hloop as (_ & Hother & _ & _).
      rewrite !Hother by discriminate. unfold base_map. rewrite Hn, Hn1.
      split; [|apply lookup_insert_eq].
      rewrite lookup_insert_ne by discriminate. apply lookup_insert_eq.
    - rewrite (initialize_agents_dangling U E B P ref st' Href) in Hinit. discriminate. }
  destruct Hm as [Hup Hex].
  unfold create_nested_chats. unfold bind, modify, gets, lift, getitem. simpl.
  rewrite Hup, Hex.
  destruct (m !! "browser_nav_agent") as [navigator|] eqn:Hnav; [|discriminate].
  destruct (m !! "planner_agent") as [planner|] eqn:Hpl; [|discriminate].
  intros Hw. injection Hw as <- _.
  exists m, navigator, planner. repeat split; try assumption.
Qed.

Section NestedExchange.

Variable SendTurn : agent -> list string -> result string.

(** An exchange only appends turns, and no more than it was allowed. *)
Lemma exchange_extends n speaker listener (t t' : list string) :
  exchange SendTurn n speaker listener t = Return t' ->
  exists more, t' = t ++ more /\ length more <= n.
Proof.
  revert speaker listener t.
  induction n as [|n IH]; intros speaker listener t Hrun; simpl in Hrun.
  - injection Hrun as <-. exists []. rewrite app_nil_r. split; [reflexivity | simpl; lia].
  - destruct (SendTurn speaker t) as [reply|e]; [|discriminate]. simpl in Hrun.
    destruct (terminates speaker reply).
    + injection Hrun as <-. exists [reply]. split; [reflexivity | simpl; lia].
    + apply IH in Hrun as (more & -> & Hlen).
      exists (reply :: more). rewrite <- app_assoc. split; [reflexivity | simpl; lia].
Qed.

(** With a backend that always replies, the exchange produces its
    transcript. *)
Lemma exchange_total n speaker listener (t : list string) :
  (forall a h, exists reply, SendTurn a h = Return reply) ->
  exists t', exchange SendTurn n speaker listener t = Return t'.
Proof.
  intros Hreply. revert speaker listener t.
  induction n as [|n IH]; intros speaker listener t; simpl; [eauto|].
  destruct (Hreply speaker t) as [reply ->]. simpl.
  destruct (terminates speaker reply); eauto.
Qed.

(** The transcript of a link allowed [S k] turns starts with the
    triggering message and has at most [S k] turns. *)
Lemma nested_transcript_bounded link msg k (t : list string) :
  max_turns link = S k ->
  nested_transcript SendTurn link msg = Return t ->
  exists more, t = msg :: more /\ length more <= k.
Proof.
  unfold nested_transcript. intros -> Hrun.
  destruct (terminates (sender link) msg).
  - injection Hrun as <-. exists []. split; [reflexivity | simpl; lia].
  - apply exchange_extends in Hrun as (more & -> & Hlen). eauto.
Qed.

Lemma nested_transcript_total link msg :
  (forall a h, exists reply, SendTurn a h = Return reply) ->
  exists t, nested_transcript SendTurn link msg = Return t.
Proof.
  intros Hreply. unfold nested_transcript.
  destruct (max_turns link); [eauto|].
  destruct (terminates (sender link) msg); [eauto|].
  now apply exchange_total.
Qed.

End NestedExchange.

(** C4.  The wrapper that [create] returns has one delegation link, whose
    trigger is the planner of its registry and whose exchange is between
    the executor and the navigator, bounded by [max_turns = 2] and
    summarised by [last_msg].  Run as the design describes, the exchange
    has at least one and at most two turns, the first being the triggering
    message, and what goes back to the parent is a single message, the
    last turn; with a backend that always replies, the run does produce
    it. *)
Theorem delegation_link_bounded_and_summarised
    (U E : string) (B : option (list config) -> agent_obj -> agent_obj)
    (P : option (list config) -> agent_obj)
    (load_dotenv : gmap string string -> gmap string string)
    (agents_needed : option nat) (n : Z) (p : process) (w : AutogenWrapper) :
  (create U E B P load_dotenv agents_needed n p).1 = Return w ->
  exists m executor navigator planner link,
    agents_map w = Some m
    /\ m !! "browser_nav_executor" = Some executor
    /\ m !! "browser_nav_agent" = Some navigator
    /\ m !! "planner_agent" = Some planner
    /\ delegation_links w = [ {| chat_queue := [link]; trigger := descriptor planner |} ]
    /\ sender link = descriptor executor
    /\ recipient link = descriptor navigator
    /\ max_turns link = 2
    /\ summary_method link = "last_msg"
    /\ forall (SendTurn : agent -> list string -> result string) (msg : string),
         (forall t, nested_transcript SendTurn link msg = Return t ->
            1 <= length t <= max_turns link
            /\ head t = Some msg
            /\ RunNested SendTurn link msg = Return (List.last t ""))
         /\ ((forall a h, exists reply, SendTurn a h = Return reply) ->
             exists t, nested_transcript SendTurn link msg = Return t).
Proof.
  intros Hcreate.
  destruct (create U E B P load_dotenv agents_needed n p) as [r st] eqn:Hc.
  simpl in Hcreate. subst r.
  destruct (create_success _ _ _ _ _ _ _ _ _ _ Hc)
    as (m & navigator & planner & Hup & Hex & Hnav & Hpl & Hmap).
  eexists _, (new_agent (browser_nav_executor_descriptor E n)), navigator, planner, _.
  split; [exact Hmap|].
  rewrite !lookup_insert_ne by discriminate.
  do 3 (split; [assumption|]).
  split; [unfold delegation_links; rewrite Hmap, lookup_insert_eq; reflexivity|].
  do 4 (split; [reflexivity|]).
  intros SendTurn msg. split.
  - intros t Ht.
    pose proof Ht as Hbound.
    apply (nested_transcript_bounded _ _ _ 1) in Hbound as (more & -> & Hlen);
      [|reflexivity].
    split; [simpl in *; lia|]. split; [reflexivity|].
    unfold RunNested. rewrite Ht. reflexivity.
  - apply nested_transcript_total.
Qed.

Lemma delegation_link_bounded_and_summarised_witness :
  exists m executor navigator planner link,
    agents_map Sample.wrapper = Some m
    /\ m !! "browser_nav_executor" = Some executor
    /\ m !! "browser_nav_agent" = Some navigator
    /\ m !! "planner_agent" = Some planner
    /\ delegation_links Sample.wrapper
       = [ {| chat_queue := [link]; trigger := descriptor planner |} ]
    /\ sender link = descriptor executor
    /\ recipient link = descriptor navigator
    /\ max_turns link = 2
    /\ summary_method link = "last_msg"
    /\ forall (SendTurn : agent -> list string -> result string) (msg : string),
         (forall t, nested_transcript SendTurn link msg = Return t ->
            1 <= length t <= max_turns link
            /\ head t = Some msg
            /\ RunNested SendTurn link msg = Return (List.last t ""))
         /\ ((forall a h, exists reply, SendTurn a h = Return reply) ->
             exists t, nested_transcript SendTurn link msg = Return t).
Proof.
  apply (delegation_link_bounded_and_summarised
           "You are the user." "You execute." Sample.navigator Sample.planner
           Sample.dotenv None 50 (Sample.process_with []) Sample.wrapper).
  vm_compute. reflexivity.
Defined.

(** The sample link run on the sample backend: two turns, the second one
    returned. *)
Example sample_nested_run :
  match delegation_links Sample.wrapper with
  | [reply] =>
      match chat_queue reply with
      | [link] =>
          nested_transcript Sample.send_turn link "Open the login page"
          = Return ["Open the login page"; "browser_nav_agent: done"]
          /\ RunNested Sample.send_turn link "Open the login page"
             = Return "browser_nav_agent: done"
      | _ => False
      end
  | _ => False
  end.
Proof. vm_compute. split; reflexivity. Qed.

(** C5, as the code has it.  The message callable of the link that
    [create] registers returns the content of the first message of the
    history it is given, whatever follows it: the planner's reply, which
    comes last, has no part in the seed unless it is the only message. *)
Theorem nested_exchange_seeded_with_first_message
    (U E : string) (B : option (list config) -> agent_obj -> agent_obj)
    (P : option (list config) -> agent_obj)
    (load_dotenv : gmap string string -> gmap string string)
    (agents_needed : option nat) (n : Z) (p : process) (w : AutogenWrapper) :
  (create U E B P load_dotenv agents_needed n p).1 = Return w ->
  exists link planner,
    delegation_links w = [ {| chat_queue := [link]; trigger := planner |} ]
    /\ forall (owner sender_agent : agent) (cfg : gmap string string)
              (first : message) (rest : list message) (v : value),
         first !! "content" = Some v ->
         nested_message link owner (first :: rest) sender_agent cfg = Return (str v).
Proof.
  intros Hcreate.
  destruct (create U E B P load_dotenv agents_needed n p) as [r st] eqn:Hc.
  simpl in Hcreate. subst r.
  destruct (create_success _ _ _ _ _ _ _ _ _ _ Hc)
    as (m & navigator & planner & _ & _ & _ & _ & Hmap).
  eexists _, _. split.
  - unfold delegation_links. rewrite Hmap, lookup_insert_eq. reflexivity.
  - intros owner sender_agent cfg first rest v Hv. simpl.
    unfold getitem. now rewrite Hv.
Qed.

Lemma nested_exchange_seeded_with_first_message_witness :
  exists link planner,
    delegation_links Sample.wrapper = [ {| chat_queue := [link]; trigger := planner |} ]
    /\ forall (owner sender_agent : agent) (cfg : gmap string string)
              (first : message) (rest : list message) (v : value),
         first !! "content" = Some v ->
         nested_message link owner (first :: rest) sender_agent cfg = Return (str v).
Proof.
  apply (nested_exchange_seeded_with_first_message
           "You are the user." "You execute." Sample.navigator Sample.planner
           Sample.dotenv None 50 (Sample.process_with []) Sample.wrapper).
  vm_compute. reflexivity.
Defined.

(** C5 as stated fails: when the link fires on the planner's reply, the
    history holds the initiator's prompt and then that reply; the seed is
    the prompt, not the reply. *)
Lemma nested_exchange_not_seeded_with_planner_reply :
  match delegation_links Sample.wrapper with
  | [reply] =>
      match chat_queue reply with
      | [link] =>
          nested_message link (recipient link)
            [ {[ "content" := VStr "Execute the user task" ]};
              {[ "content" := VStr "Open the login page" ]} ]
            (trigger reply) ∅
          = Return (of_string "Execute the user task")
          /\ of_string "Execute the user task" <> of_string "Open the login page"
      | _ => False
      end
  | _ => False
  end.
Proof. vm_compute. split; [reflexivity | discriminate]. Qed.

(** * Further properties of the module *)

(** ** The two termination markers *)

(** X1. The predicate of the agent that
    [__create_browser_nav_executor_agent] builds fires on a message whose
    content is the string [s] exactly when [s.rstrip().upper()] ends with
    [##TERMINATE SUBTASK##], that is, exactly when [s] is some text, then a
    run of characters equal to that marker up to case, then only
    whitespace.  Whitespace is Python's: Unicode's White_Space and the
    separators FS to US.  A character equals a capital letter of the marker
    up to case when it is that letter, its ASCII small letter or, for I and
    S, the dotless i and the long s, which [upper] also maps to I and S. *)
Theorem executor_terminates_on_subtask_marker
    (E : string) (st : state) (a : agent_obj) (x : message) (s : pystr) :
  (__create_browser_nav_executor_agent E st).1 = Return a ->
  x !! "content" = Some (VStr s) ->
  exists f,
    is_termination_msg (descriptor a) = Some f
    /\ (fires (f x) = true
        <-> endswith (upper (rstrip s)) "##TERMINATE SUBTASK##" = true)
    /\ (fires (f x) = true <-> ends_with_marker "##TERMINATE SUBTASK##" s).
Proof.
  intros Ha Hx. injection Ha as <-. eexists. split; [reflexivity|].
  assert (Hne : "##TERMINATE SUBTASK##" <> "") by discriminate.
  rewrite (termination_lambda_str "##TERMINATE SUBTASK##" Hne x s Hx).
  split; [reflexivity|].
  apply endswith_marker. vm_compute. reflexivity.
Qed.

Lemma executor_terminates_on_subtask_marker_witness :
  exists f,
    is_termination_msg (browser_nav_executor_descriptor "You execute." 50) = Some f
    /\ fires (f {[ "content" := VStr "Clicked. ##Terminate Subtask##  " ]}) = true.
Proof.
  assert (Hx : ({[ "content" := VStr "Clicked. ##Terminate Subtask##  " ]} : message)
               !! "content" = Some (VStr "Clicked. ##Terminate Subtask##  "))
    by reflexivity.
  destruct (executor_terminates_on_subtask_marker "You execute." (Sample.state_with [])
              (new_agent (browser_nav_executor_descriptor "You execute." 50))
              {[ "content" := VStr "Clicked. ##Terminate Subtask##  " ]}
              "Clicked. ##Terminate Subtask##  " eq_refl Hx)
    as (f & Hf & _ & Hfires).
  exists f. split; [exact Hf|].
  apply Hfires.
  apply (ends_with_marker_intro "##TERMINATE SUBTASK##"
           "Clicked. " "##Terminate Subtask##" "  ");
    reflexivity.
Defined.

(** X2. No message fires both the initiator's and the executor's
    termination predicate: a reply that ends the nested exchange never
    ends the outer one, and conversely. *)
Theorem termination_markers_disjoint
    (U E : string) (st : state) (initiator executor : agent_obj) (x : message) :
  (__create_user_proxy_agent U st).1 = Return initiator ->
  (__create_browser_nav_executor_agent E st).1 = Return executor ->
  exists f g,
    is_termination_msg (descriptor initiator) = Some f
    /\ is_termination_msg (descriptor executor) = Some g
    /\ ~ (fires (f x) = true /\ fires (g x) = true).
Proof.
  intros Hi He. injection Hi as <-. injection He as <-.
  do 2 eexists. split; [reflexivity|]. split; [reflexivity|].
  intros [Hf Hg].
  destruct (termination_lambda_fires_str _ _ Hf) as (s & Hx & _).
  assert (H1 : "##TERMINATE##" <> "") by discriminate.
  assert (H2 : "##TERMINATE SUBTASK##" <> "") by discriminate.
  rewrite (termination_lambda_str _ H1 x s Hx) in Hf.
  rewrite (termination_lambda_str _ H2 x s Hx) in Hg.
  assert (Hsuffix := endswith_both _ _ _ Hf Hg ltac:(vm_compute; lia)).
  vm_compute in Hsuffix. discriminate Hsuffix.
Qed.

Lemma termination_markers_disjoint_witness :
  exists f g,
    is_termination_msg (user_proxy_descriptor "You are the user." 50) = Some f
    /\ is_termination_msg (browser_nav_executor_descriptor "You execute." 50) = Some g
    /\ ~ (fires (f {[ "content" := VStr "Done ##TERMINATE SUBTASK##" ]}) = true
          /\ fires (g {[ "content" := VStr "Done ##TERMINATE SUBTASK##" ]}) = true).
Proof.
  apply (termination_markers_disjoint "You are the user." "You execute."
           (Sample.state_with [])
           (new_agent (user_proxy_descriptor "You are the user." 50))
           (new_agent (browser_nav_executor_descriptor "You execute." 50))).
  - reflexivity.
  - reflexivity.
Defined.

(** ** More on registry construction *)

Section RegistryMore.

Variables user_prompt executor_prompt : string.
Variable B : option (list config) -> agent_obj -> agent_obj.
Variable P : option (list config) -> agent_obj.

Abbreviation initialize_loop' := (initialize_loop B P).
Abbreviation initialize_agents' := (__initialize_agents user_prompt executor_prompt B P).

Lemma remove_first_Some_elem x (l l' : list string) :
  remove_first x l = Some l' -> x ∈ l.
Proof.
  intros Hr. destruct (decide (x ∈ l)) as [Hin|Hin]; [assumption|].
  rewrite (remove_first_None _ _ Hin) in Hr. discriminate.
Qed.

Lemma remove_first_Permutation x (l l' : list string) :
  remove_first x l = Some l' -> l ≡ₚ x :: l'.
Proof.
  revert l'. induction l as [|y l IH]; intros l' Hr; [discriminate|].
  simpl in Hr. destruct (String.eqb_spec y x) as [->|Hne].
  - now injection Hr as <-.
  - destruct (remove_first x l) as [l1|]; [|discriminate].
    injection Hr as <-. rewrite (IH l1 eq_refl). apply perm_swap.
Qed.

(** Removing the first [x] from a rearrangement of [x :: rest] leaves a
    rearrangement of [rest]. *)
Lemma remove_first_of_Permutation x (l rest : list string) :
  l ≡ₚ x :: rest -> exists l', remove_first x l = Some l' /\ l' ≡ₚ rest.
Proof.
  intros Hperm.
  assert (Hin : x ∈ l) by (rewrite Hperm; apply elem_of_cons; now left).
  destruct (remove_first_Some _ _ Hin) as [l' Hl']. exists l'. split; [assumption|].
  apply remove_first_Permutation in Hl'. rewrite Hl' in Hperm.
  now apply Permutation_cons_inv in Hperm.
Qed.

(** On a list of navigators and planners the loop goes through. *)
Lemma initialize_loop_total ex (l : list string) m st :
  Forall built_in_loop l ->
  exists m', (initialize_loop' ex l m st).1 = Return m'.
Proof.
  intros Hall. revert m. induction Hall as [|a l Ha _ IH]; intros m; [simpl; eauto|].
  simpl. destruct Ha as [-> | ->]; simpl; apply IH.
Qed.

(** A construction that returns was given, up to order, [user_proxy],
    [browser_nav_executor] and navigators and planners only. *)
Lemma initialize_agents_returned ref st (needed : list string) :
  lists (proc st) !! ref = Some needed ->
  returned (initialize_agents' ref st).1 = true ->
  exists rest,
    needed ≡ₚ "user_proxy" :: "browser_nav_executor" :: rest
    /\ Forall built_in_loop rest.
Proof.
  intros Href.
  destruct (initialize_agents' ref st).1 as [m|e] eqn:Hrun; [intros _ | discriminate].
  destruct (initialize_agents_success _ _ _ _ _ _ _ _ Href Hrun)
    as (l1 & l2 & Hl1 & Hl2 & _ & Hloop).
  apply initialize_loop_success in Hloop as (Hall & _).
  exists l2. split.
  - rewrite (remove_first_Permutation _ _ _ Hl1).
    now rewrite (remove_first_Permutation _ _ _ Hl2).
  - apply Forall_forall. exact Hall.
Qed.

(** On such a list the construction returns. *)
Lemma initialize_agents_returns ref st (needed rest : list string) :
  lists (proc st) !! ref = Some needed ->
  needed ≡ₚ "user_proxy" :: "browser_nav_executor" :: rest ->
  Forall built_in_loop rest ->
  returned (initialize_agents' ref st).1 = true.
Proof.
  intros Href Hperm Hall.
  rewrite (initialize_agents_run _ _ _ _ _ _ _ Href).
  destruct (remove_first_of_Permutation _ _ _ Hperm) as (l1 & Hl1 & Hperm1).
  destruct (remove_first_of_Permutation _ _ _ Hperm1) as (l2 & Hl2 & Hperm2).
  rewrite bool_decide_eq_true_2 by (eapply remove_first_Some_elem, Hl1).
  rewrite Hl1, Hl2.
  edestruct (initialize_loop_total) as [m' ->]; [|reflexivity].
  eapply Permutation_Forall; [symmetry; exact Hperm2 | exact Hall].
Qed.

(** The registry of a successful construction, key by key. *)
Lemma initialize_agents_registry ref st (needed : list string) m :
  lists (proc st) !! ref = Some needed ->
  (initialize_agents' ref st).1 = Return m ->
  forall k,
    m !! k =
      if decide (k = "user_proxy") then
        Some (new_agent (user_proxy_descriptor user_prompt (number_of_rounds (self st))))
      else if decide (k = "browser_nav_executor") then
        Some (new_agent (browser_nav_executor_descriptor executor_prompt
                           (number_of_rounds (self st))))
      else if decide (k = "browser_nav_agent") then
        if bool_decide ("browser_nav_agent" ∈ needed) then
          Some (B (config_list (self st))
                  (new_agent (browser_nav_executor_descriptor executor_prompt
                                (number_of_rounds (self st)))))
        else None
      else if decide (k = "planner_agent") then
        if bool_decide ("planner_agent" ∈ needed) then Some (P (config_list (self st)))
        else None
      else None.
Proof.
  intros Href Hrun k.
  destruct (initialize_agents_success _ _ _ _ _ _ _ _ Href Hrun)
    as (l1 & l2 & Hl1 & Hl2 & _ & Hloop).
  apply initialize_loop_success in Hloop as (_ & Hother & Hnav & Hpl).
  assert (Hmem : forall a, a <> "user_proxy" -> a <> "browser_nav_executor" ->
                           bool_decide (a ∈ l2) = bool_decide (a ∈ needed)).
  { intros a H1 H2. apply bool_decide_ext.
    rewrite (remove_first_elem _ _ _ _ Hl2) by assumption.
    now apply (remove_first_elem _ _ _ _ Hl1). }
  unfold base_map in *.
  change (self (with_list ref l2 (with_list ref l1 st))) with (self st) in *.
  destruct (decide (k = "user_proxy")) as [->|K1].
  { rewrite Hother by discriminate.
    rewrite lookup_insert_ne by discriminate. apply lookup_insert_eq. }
  destruct (decide (k = "browser_nav_executor")) as [->|K2].
  { rewrite Hother by discriminate. apply lookup_insert_eq. }
  destruct (decide (k = "browser_nav_agent")) as [->|K3].
  { rewrite Hnav, Hmem by discriminate.
    now rewrite !lookup_insert_ne, lookup_empty by discriminate. }
  destruct (decide (k = "planner_agent")) as [->|K4].
  { rewrite Hpl, Hmem by discriminate.
    now rewrite !lookup_insert_ne, lookup_empty by discriminate. }
  rewrite Hother by assumption.
  now rewrite !lookup_insert_ne, lookup_empty by congruence.
Qed.

End RegistryMore.

(** The state that [__initialize_agents] leaves: the caller's list without
    what was removed before the run stopped. *)
Lemma initialize_agents_final_state
    (U E : string) (B : option (list config) -> agent_obj -> agent_obj)
    (P : option (list config) -> agent_obj)
    (ref : nat) (st : state) (needed : list string) :
  lists (proc st) !! ref = Some needed ->
  (__initialize_agents U E B P ref st).2 =
    match remove_first "user_proxy" needed with
    | Some l1 =>
        match remove_first "browser_nav_executor" l1 with
        | Some l2 => with_list ref l2 (with_list ref l1 st)
        | None => with_list ref l1 st
        end
    | None => st
    end.
Proof.
  intros Href. rewrite (initialize_agents_run _ _ _ _ _ _ _ Href).
  case_bool_decide as Hup.
  - destruct (remove_first_Some _ _ Hup) as [l1 ->].
    destruct (remove_first "browser_nav_executor" l1); [|reflexivity].
    apply initialize_loop_state.
  - now rewrite (remove_first_None _ _ Hup).
Qed.

(** X3. [__initialize_agents] returns a registry exactly when the
    requested list is, up to order, [user_proxy], [browser_nav_executor]
    and any number of [browser_nav_agent] and [planner_agent] entries: a
    second [user_proxy] or [browser_nav_executor], or a list without the
    executor, makes it raise. *)
Theorem initialize_agents_returns_iff
    (U E : string) (B : option (list config) -> agent_obj -> agent_obj)
    (P : option (list config) -> agent_obj)
    (ref : nat) (st : state) (needed : list string) :
  lists (proc st) !! ref = Some needed ->
  returned (__initialize_agents U E B P ref st).1 = true
  <-> exists rest,
        needed ≡ₚ "user_proxy" :: "browser_nav_executor" :: rest
        /\ Forall built_in_loop rest.
Proof.
  intros Href. split.
  - now apply initialize_agents_returned.
  - intros (rest & Hperm & Hall). eapply initialize_agents_returns; eassumption.
Qed.

Lemma initialize_agents_returns_iff_witness :
  returned (Sample.initialize_agents 0
              (Sample.state_with [["planner_agent"; "browser_nav_executor"; "user_proxy"]])).1
  = true
  <-> exists rest,
        ["planner_agent"; "browser_nav_executor"; "user_proxy"]
          ≡ₚ "user_proxy" :: "browser_nav_executor" :: rest
        /\ Forall built_in_loop rest.
Proof.
  apply (initialize_agents_returns_iff _ _ _ _ 0
           (Sample.state_with [["planner_agent"; "browser_nav_executor"; "user_proxy"]])).
  reflexivity.
Defined.

(** X4. The registry does not depend on the order of the requested roles:
    when a construction succeeds, a construction on the same instance
    configuration from any rearrangement of the list succeeds with the
    same registry. *)
Theorem initialize_agents_order_irrelevant
    (U E : string) (B : option (list config) -> agent_obj -> agent_obj)
    (P : option (list config) -> agent_obj)
    (ref ref' : nat) (st st' : state) (needed needed' : list string)
    (m : gmap string agent_obj) :
  lists (proc st) !! ref = Some needed ->
  lists (proc st') !! ref' = Some needed' ->
  self st = self st' ->
  needed ≡ₚ needed' ->
  (__initialize_agents U E B P ref st).1 = Return m ->
  (__initialize_agents U E B P ref' st').1 = Return m.
Proof.
  intros Href Href' Hself Hperm Hrun.
  assert (Hret : returned (__initialize_agents U E B P ref st).1 = true)
    by now rewrite Hrun.
  apply (initialize_agents_returned U E B P ref st needed Href) in Hret
    as (rest & Hrest & Hall).
  assert (Hret' : returned (__initialize_agents U E B P ref' st').1 = true).
  { apply (initialize_agents_returns U E B P ref' st' needed' rest Href');
      [now rewrite <- Hperm | assumption]. }
  destruct (__initialize_agents U E B P ref' st').1 as [m'|e] eqn:Hrun';
    [|discriminate].
  f_equal. apply map_eq. intros k.
  rewrite (initialize_agents_registry U E B P ref st needed m Href Hrun k).
  rewrite (initialize_agents_registry U E B P ref' st' needed' m' Href' Hrun' k).
  rewrite Hself.
  rewrite (bool_decide_ext _ _ (elem_of_Permutation_proper "browser_nav_agent" _ _ Hperm)).
  rewrite (bool_decide_ext _ _ (elem_of_Permutation_proper "planner_agent" _ _ Hperm)).
  reflexivity.
Qed.

Lemma initialize_agents_order_irrelevant_witness :
  (Sample.initialize_agents 1
     (Sample.state_with
        [ ["user_proxy"; "browser_nav_executor"; "planner_agent"; "browser_nav_agent"];
          ["browser_nav_agent"; "planner_agent"; "browser_nav_executor"; "user_proxy"] ])).1
  = Return Sample.registry.
Proof.
  apply (initialize_agents_order_irrelevant
           "You are the user." "You execute." Sample.navigator Sample.planner
           0 1
           (Sample.state_with
              [ ["user_proxy"; "browser_nav_executor"; "planner_agent"; "browser_nav_agent"];
                ["browser_nav_agent"; "planner_agent"; "browser_nav_executor"; "user_proxy"] ])
           (Sample.state_with
              [ ["user_proxy"; "browser_nav_executor"; "planner_agent"; "browser_nav_agent"];
                ["browser_nav_agent"; "planner_agent"; "browser_nav_executor"; "user_proxy"] ])
           ["user_proxy"; "browser_nav_executor"; "planner_agent"; "browser_nav_agent"]
           ["browser_nav_agent"; "planner_agent"; "browser_nav_executor"; "user_proxy"]).
  - reflexivity.
  - reflexivity.
  - reflexivity.
  - apply (Permutation_rev
             ["user_proxy"; "browser_nav_executor"; "planner_agent"; "browser_nav_agent"]).
  - vm_compute. reflexivity.
Defined.

(** X5. [__initialize_agents] changes nothing but the list it is given:
    the instance, the environment, the temporary files, the log and every
    other list object are as before, whether it returns or raises.  The
    list has lost its first [user_proxy] when it had one, and then its
    first [browser_nav_executor] when it had one; the removals stay when
    the construction fails later. *)
Theorem initialize_agents_touches_only_its_list
    (U E : string) (B : option (list config) -> agent_obj -> agent_obj)
    (P : option (list config) -> agent_obj)
    (ref : nat) (st : state) (needed : list string) :
  lists (proc st) !! ref = Some needed ->
  self (__initialize_agents U E B P ref st).2 = self st
  /\ environ (proc (__initialize_agents U E B P ref st).2) = environ (proc st)
  /\ temp_files (proc (__initialize_agents U E B P ref st).2) = temp_files (proc st)
  /\ log (proc (__initialize_agents U E B P ref st).2) = log (proc st)
  /\ (forall ref', ref' <> ref ->
        lists (proc (__initialize_agents U E B P ref st).2) !! ref'
        = lists (proc st) !! ref')
  /\ lists (proc (__initialize_agents U E B P ref st).2) !! ref
     = Some match remove_first "user_proxy" needed with
            | Some l1 =>
                match remove_first "browser_nav_executor" l1 with
                | Some l2 => l2
                | None => l1
                end
            | None => needed
            end.
Proof.
  intros Href. rewrite (initialize_agents_final_state _ _ _ _ _ _ _ Href).
  destruct (remove_first "user_proxy" needed) as [l1|];
    [destruct (remove_first "browser_nav_executor" l1) as [l2|]|];
    repeat split; try assumption;
    try (intros ref' Hne; now rewrite ?with_list_lookup_ne by congruence).
  - eapply with_list_lookup, with_list_lookup, Href.
  - eapply with_list_lookup, Href.
Qed.

Lemma initialize_agents_touches_only_its_list_witness :
  lists (proc (Sample.initialize_agents 0
                 (Sample.state_with
                    [ ["user_proxy"; "browser_nav_executor"; "search_agent"];
                      ["user_proxy"] ])).2) !! 0
  = Some ["search_agent"]
  /\ lists (proc (Sample.initialize_agents 0
                    (Sample.state_with
                       [ ["user_proxy"; "browser_nav_executor"; "search_agent"];
                         ["user_proxy"] ])).2) !! 1
     = Some ["user_proxy"].
Proof.
  destruct (initialize_agents_touches_only_its_list
              "You are the user." "You execute." Sample.navigator Sample.planner 0
              (Sample.state_with
                 [ ["user_proxy"; "browser_nav_executor"; "search_agent"];
                   ["user_proxy"] ])
              ["user_proxy"; "browser_nav_executor"; "search_agent"] eq_refl)
    as (_ & _ & _ & _ & Hother & Hlist).
  split; [exact Hlist | exact (Hother 1 ltac:(discriminate))].
Defined.

(** X6. A list that names [user_proxy] but not [browser_nav_executor],
    such as the [["user_proxy", "browser_nav_agent"]] that the docstring
    of [create] announces as the default, makes [__initialize_agents]
    raise the [ValueError] of [list.remove]: requesting the executor is
    required, although it is built without being asked for. *)
Theorem initialize_agents_requires_executor
    (U E : string) (B : option (list config) -> agent_obj -> agent_obj)
    (P : option (list config) -> agent_obj)
    (ref : nat) (st : state) (needed : list string) :
  lists (proc st) !! ref = Some needed ->
  "user_proxy" ∈ needed ->
  "browser_nav_executor" ∉ needed ->
  (__initialize_agents U E B P ref st).1
  = Raise (ValueError "list.remove(x): x not in list").
Proof.
  intros Href Hup Hex. rewrite (initialize_agents_run _ _ _ _ _ _ _ Href).
  rewrite bool_decide_eq_true_2 by assumption.
  destruct (remove_first_Some _ _ Hup) as [l1 Hl1]. rewrite Hl1.
  rewrite remove_first_None; [reflexivity|].
  intros Hin. apply Hex. eapply remove_first_subset; eassumption.
Qed.

Lemma initialize_agents_requires_executor_witness :
  (Sample.initialize_agents 0 (Sample.state_with [["user_proxy"; "browser_nav_agent"]])).1
  = Raise (ValueError "list.remove(x): x not in list").
Proof.
  apply (initialize_agents_requires_executor _ _ _ _ 0 _
           ["user_proxy"; "browser_nav_agent"]).
  - reflexivity.
  - apply (bool_decide_unpack _). vm_compute. exact I.
  - apply (bool_decide_unpack _). vm_compute. exact I.
Defined.

(** ** More on [create] *)

Section CreateMore.

Variables U E : string.
Variable B : option (list config) -> agent_obj -> agent_obj.
Variable P : option (list config) -> agent_obj.
Variable load_dotenv : gmap string string -> gmap string string.

(** The environment after the first lines of [create]. *)
Lemma create_config_list_missing_key st :
  load_dotenv (environ (proc st)) !! "OPENAI_API_KEY" = None ->
  create_config_list load_dotenv st =
    (Raise (KeyError "OPENAI_API_KEY"),
     set_proc (set_environ (<["AUTOGEN_USE_DOCKER" := "False"]>
                              (load_dotenv (environ (proc st)))) (proc st)) st).
Proof.
  intros Hkey.
  unfold create_config_list, bind, modify, environ_setitem, environ_getitem, getitem.
  simpl. rewrite lookup_insert_ne by discriminate. now rewrite Hkey.
Qed.

(** With the API key in the environment, the configuration step writes the
    one-entry document to a new temporary file, reads it back through the
    model filter, which keeps it, and stores it on the instance. *)
Lemma create_config_list_with_key st key :
  load_dotenv (environ (proc st)) !! "OPENAI_API_KEY" = Some key ->
  create_config_list load_dotenv st =
    (Return tt,
     {| self :=
          set_config_list
            (Some [ {[ "model" := "gpt-4-turbo-preview"; "api_key" := key ]} ])
            (self st);
        proc :=
          {| lists := lists (proc st);
             environ := <["AUTOGEN_USE_DOCKER" := "False"]>
                          (load_dotenv (environ (proc st)));
             temp_files :=
               temp_files (proc st)
                 ++ [ [ {[ "model" := "gpt-4-turbo-preview"; "api_key" := key ]} ] ];
             log := log (proc st) |} |}).
Proof.
  intros Hkey.
  unfold create_config_list, bind, modify, environ_setitem, environ_getitem, getitem,
    dump_to_temp_file, config_list_from_json, gets.
  simpl. rewrite lookup_insert_ne by discriminate. rewrite Hkey. simpl.
  rewrite list_lookup_middle by reflexivity. simpl.
  unfold config_accepted. simpl. rewrite lookup_insert_eq.
  rewrite bool_decide_eq_true_2 by (apply elem_of_cons; now left).
  reflexivity.
Qed.

(** What is left of [create] once the configuration is stored. *)
Abbreviation create_rest ref :=
  (m <- __initialize_agents U E B P ref ;;
   modify (fun s => set_self (set_agents_map (Some m) (self s)) s) ;;
   create_nested_chats ;;
   gets self)%method.

Lemma create_with_key agents_needed n p key :
  load_dotenv (environ p) !! "OPENAI_API_KEY" = Some key ->
  exists ref st2,
    create U E B P load_dotenv agents_needed n p = create_rest ref st2
    /\ ref = match agents_needed with Some r => r | None => length (lists p) end
    /\ self st2
       = set_config_list
           (Some [ {[ "model" := "gpt-4-turbo-preview"; "api_key" := key ]} ]) (init n)
    /\ lists (proc st2)
       = match agents_needed with
         | Some _ => lists p
         | None => lists p ++ [default_agents_needed]
         end
    /\ environ (proc st2)
       = <["AUTOGEN_USE_DOCKER" := "False"]> (load_dotenv (environ p))
    /\ temp_files (proc st2)
       = temp_files p ++ [ [ {[ "model" := "gpt-4-turbo-preview"; "api_key" := key ]} ] ]
    /\ log (proc st2) = log p.
Proof.
  intros Hkey. unfold create, create_body. unfold bind at 1.
  destruct agents_needed as [r|]; simpl; unfold bind at 1;
    rewrite (create_config_list_with_key _ key) by exact Hkey;
    do 2 eexists; (split; [reflexivity|]); simpl; repeat split.
Qed.

(** The registration step, lookup by lookup. *)
Lemma create_nested_chats_run st m :
  agents_map (self st) = Some m ->
  create_nested_chats st =
    match m !! "user_proxy" with
    | None => (Raise (KeyError "user_proxy"), st)
    | Some user_proxy =>
        match m !! "browser_nav_executor" with
        | None => (Raise (KeyError "browser_nav_executor"), st)
        | Some executor =>
            match m !! "browser_nav_agent" with
            | None => (Raise (KeyError "browser_nav_agent"), st)
            | Some navigator =>
                match m !! "planner_agent" with
                | None => (Raise (KeyError "planner_agent"), st)
                | Some planner =>
                    (Return tt,
                     set_self
                       (set_agents_map
                          (Some (<["user_proxy" :=
                                     register_nested_chats user_proxy
                                       [ {| sender := descriptor executor;
                                            recipient := descriptor navigator;
                                            nested_message := nested_chat_message;
                                            max_turns := 2;
                                            summary_method := "last_msg" |} ]
                                       (descriptor planner)]> m))
                          (self st)) st)
                end
            end
        end
    end.
Proof.
  intros Hm. unfold create_nested_chats. unfold bind, gets, lift, modify, getitem.
  rewrite Hm.
  destruct (m !! "user_proxy"); [|reflexivity].
  destruct (m !! "browser_nav_executor"); [|reflexivity].
  destruct (m !! "browser_nav_agent"); [|reflexivity].
  destruct (m !! "planner_agent"); reflexivity.
Qed.

(** [create] returns the instance it leaves in the state. *)
Lemma create_returns_self agents_needed n p w st :
  create U E B P load_dotenv agents_needed n p = (Return w, st) -> w = self st.
Proof.
  unfold create, create_body. unfold bind at 1.
  destruct (match agents_needed with
            | Some ref => ret ref
            | None => new_list default_agents_needed
            end _) as [[ref|?] st1]; [|discriminate].
  unfold bind at 1. destruct (create_config_list _ _) as [[?|?] st2]; [|discriminate].
  unfold bind at 1. destruct (__initialize_agents _ _ _ _ _ _) as [[m|?] st3];
    [|discriminate].
  unfold bind at 1. unfold modify at 1.
  unfold bind at 1. destruct (create_nested_chats _) as [[?|?] st4]; [|discriminate].
  unfold gets. intros H. now injection H as <- <-.
Qed.

End CreateMore.

(** Without the API key [create] raises. *)
Lemma create_raises_without_key
    (U E : string) (B : option (list config) -> agent_obj -> agent_obj)
    (P : option (list config) -> agent_obj)
    (load_dotenv : gmap string string -> gmap string string)
    (agents_needed : option nat) (n : Z) (p : process) :
  load_dotenv (environ p) !! "OPENAI_API_KEY" = None ->
  exists st,
    create U E B P load_dotenv agents_needed n p = (Raise (KeyError "OPENAI_API_KEY"), st).
Proof.
  intros Hkey. unfold create, create_body. unfold bind at 1.
  destruct agents_needed as [r|]; simpl; unfold bind at 1;
    rewrite create_config_list_missing_key by exact Hkey; eauto.
Qed.

(** X7. Without [OPENAI_API_KEY] in the environment, once the [.env] file
    is loaded, [create] raises [KeyError] before anything is built: the
    instance has neither registry nor backend configuration and no
    temporary file was written.  [AUTOGEN_USE_DOCKER] is already set to
    [False] in the environment. *)
Theorem create_without_api_key
    (U E : string) (B : option (list config) -> agent_obj -> agent_obj)
    (P : option (list config) -> agent_obj)
    (load_dotenv : gmap string string -> gmap string string)
    (agents_needed : option nat) (n : Z) (p : process) :
  load_dotenv (environ p) !! "OPENAI_API_KEY" = None ->
  exists st,
    create U E B P load_dotenv agents_needed n p = (Raise (KeyError "OPENAI_API_KEY"), st)
    /\ agents_map (self st) = None
    /\ config_list (self st) = None
    /\ temp_files (proc st) = temp_files p
    /\ environ (proc st) !! "AUTOGEN_USE_DOCKER" = Some "False".
Proof.
  intros Hkey. unfold create, create_body. unfold bind at 1.
  destruct agents_needed as [r|]; simpl; unfold bind at 1;
    rewrite create_config_list_missing_key by exact Hkey;
    eexists; (split; [reflexivity|]); simpl;
    repeat split; apply lookup_insert_eq.
Qed.

Lemma create_without_api_key_witness :
  exists st,
    create "You are the user." "You execute." Sample.navigator Sample.planner
      Sample.dotenv None 50
      {| lists := []; environ := {[ "HOME" := "/root" ]}; temp_files := []; log := [] |}
    = (Raise (KeyError "OPENAI_API_KEY"), st)
    /\ agents_map (self st) = None
    /\ config_list (self st) = None
    /\ temp_files (proc st) = []
    /\ environ (proc st) !! "AUTOGEN_USE_DOCKER" = Some "False".
Proof.
  apply (create_without_api_key
           "You are the user." "You execute." Sample.navigator Sample.planner
           Sample.dotenv None 50
           {| lists := []; environ := {[ "HOME" := "/root" ]};
              temp_files := []; log := [] |}).
  reflexivity.
Defined.

Section CreateResult.

Variables U E : string.
Variable B : option (list config) -> agent_obj -> agent_obj.
Variable P : option (list config) -> agent_obj.
Variable load_dotenv : gmap string string -> gmap string string.

(** [__initialize_agents] leaves the instance, the environment, the
    temporary files and the log alone, valid reference or not. *)
Lemma initialize_agents_frame ref st :
  self (__initialize_agents U E B P ref st).2 = self st
  /\ environ (proc (__initialize_agents U E B P ref st).2) = environ (proc st)
  /\ temp_files (proc (__initialize_agents U E B P ref st).2) = temp_files (proc st)
  /\ log (proc (__initialize_agents U E B P ref st).2) = log (proc st).
Proof.
  destruct (lists (proc st) !! ref) as [needed|] eqn:Href.
  - rewrite (initialize_agents_final_state _ _ _ _ _ _ _ Href).
    destruct (remove_first "user_proxy" needed) as [l1|];
      [destruct (remove_first "browser_nav_executor" l1)|]; repeat split.
  - rewrite (initialize_agents_dangling _ _ _ _ _ _ Href). repeat split.
Qed.

(** Replacing the last element of a list. *)
Lemma insert_snoc {A} (l : list A) (x y : A) :
  <[length l := y]> (l ++ [x]) = l ++ [y].
Proof. induction l as [|a l IH]; simpl; [reflexivity | now rewrite IH]. Qed.

(** The list that [create] hands to [__initialize_agents]. *)
Lemma create_requested (agents_needed : option nat) (p : process) (ref : nat) (st2 : state) :
  ref = match agents_needed with Some r => r | None => length (lists p) end ->
  lists (proc st2)
  = match agents_needed with
    | Some _ => lists p
    | None => lists p ++ [default_agents_needed]
    end ->
  lists (proc st2) !! ref
  = match agents_needed with
    | Some r => lists p !! r
    | None => Some default_agents_needed
    end.
Proof.
  intros -> ->. destruct agents_needed; [reflexivity|].
  now apply list_lookup_middle.
Qed.

(** What a [create] that returns has done. *)
Lemma create_returned agents_needed n p w st :
  create U E B P load_dotenv agents_needed n p = (Return w, st) ->
  exists key needed m,
    load_dotenv (environ p) !! "OPENAI_API_KEY" = Some key
    /\ match agents_needed with
       | Some r => lists p !! r
       | None => Some default_agents_needed
       end = Some needed
    /\ (exists rest,
          needed ≡ₚ "user_proxy" :: "browser_nav_executor" :: rest
          /\ Forall built_in_loop rest
          /\ match agents_needed with
             | Some r =>
                 lists (proc st) !! r = Some rest
                 /\ forall r', r' <> r -> lists (proc st) !! r' = lists p !! r'
             | None => lists (proc st) = lists p ++ [rest]
             end)
    /\ m !! "user_proxy" = Some (new_agent (user_proxy_descriptor U n))
    /\ m !! "browser_nav_executor"
       = Some (new_agent (browser_nav_executor_descriptor E n))
    /\ "browser_nav_agent" ∈ needed
    /\ m !! "browser_nav_agent"
       = Some (B (Some [ {[ "model" := "gpt-4-turbo-preview"; "api_key" := key ]} ])
                 (new_agent (browser_nav_executor_descriptor E n)))
    /\ "planner_agent" ∈ needed
    /\ m !! "planner_agent"
       = Some (P (Some [ {[ "model" := "gpt-4-turbo-preview"; "api_key" := key ]} ]))
    /\ (forall k, k ∉ known_roles -> m !! k = None)
    /\ w = {| number_of_rounds := n;
              agents_map :=
                Some (<["user_proxy" :=
                         register_nested_chats (new_agent (user_proxy_descriptor U n))
                           [ {| sender := browser_nav_executor_descriptor E n;
                                recipient :=
                                  descriptor
                                    (B (Some [ {[ "model" := "gpt-4-turbo-preview";
                                                  "api_key" := key ]} ])
                                       (new_agent (browser_nav_executor_descriptor E n)));
                                nested_message := nested_chat_message;
                                max_turns := 2;
                                summary_method := "last_msg" |} ]
                           (descriptor
                              (P (Some [ {[ "model" := "gpt-4-turbo-preview";
                                            "api_key" := key ]} ])))]> m);
              config_list :=
                Some [ {[ "model" := "gpt-4-turbo-preview"; "api_key" := key ]} ] |}
    /\ self st = w
    /\ environ (proc st) = <["AUTOGEN_USE_DOCKER" := "False"]> (load_dotenv (environ p))
    /\ temp_files (proc st)
       = temp_files p ++ [ [ {[ "model" := "gpt-4-turbo-preview"; "api_key" := key ]} ] ]
    /\ log (proc st) = log p.
Proof.
  intros Hc.
  destruct (load_dotenv (environ p) !! "OPENAI_API_KEY") as [key|] eqn:Hkey.
  2:{ destruct (create_raises_without_key U E B P load_dotenv agents_needed n p Hkey)
        as [st' Hraise].
      rewrite Hraise in Hc. discriminate. }
  destruct (create_with_key U E B P load_dotenv agents_needed n p key Hkey)
    as (ref & st2 & Heq & Href & Hself2 & Hlists2 & Henv2 & Htmp2 & Hlog2).
  rewrite Heq in Hc. clear Heq.
  pose proof (create_requested agents_needed p ref st2 Href Hlists2) as Hreq.
  unfold bind at 1 in Hc.
  destruct (initialize_agents_frame ref st2) as (Hself3 & Henv3 & Htmp3 & Hlog3).
  destruct (__initialize_agents U E B P ref st2) as [[m|e] st3] eqn:Hinit;
    [|discriminate].
  simpl in Hself3, Henv3, Htmp3, Hlog3.
  assert (Hrun : (__initialize_agents U E B P ref st2).1 = Return m) by now rewrite Hinit.
  destruct (lists (proc st2) !! ref) as [needed|] eqn:Hvalid.
  2:{ rewrite (initialize_agents_dangling _ _ _ _ _ _ Hvalid) in Hinit. discriminate. }
  pose proof (initialize_agents_registry U E B P ref st2 needed m Hvalid Hrun) as Hreg.
  rewrite Hself2 in Hreg. simpl in Hreg.
  unfold bind at 1, modify at 1 in Hc. unfold bind at 1 in Hc.
  rewrite (create_nested_chats_run _ m) in Hc by reflexivity.
  pose proof (Hreg "user_proxy") as Hup. simpl in Hup.
  pose proof (Hreg "browser_nav_executor") as Hex. simpl in Hex.
  pose proof (Hreg "browser_nav_agent") as Hnav. simpl in Hnav.
  pose proof (Hreg "planner_agent") as Hpl. simpl in Hpl.
  rewrite Hup, Hex, Hnav, Hpl in Hc.
  destruct (bool_decide ("browser_nav_agent" ∈ needed)) eqn:Hnav_in; [|discriminate].
  destruct (bool_decide ("planner_agent" ∈ needed)) eqn:Hpl_in; [|discriminate].
  apply bool_decide_eq_true in Hnav_in. apply bool_decide_eq_true in Hpl_in.
  cbv beta iota in Hc. unfold gets in Hc. injection Hc as <- <-.
  exists key, needed, m.
  split; [reflexivity|]. split; [now symmetry|].
  split.
  { destruct (initialize_agents_success U E B P ref st2 needed m Hvalid Hrun)
      as (l1 & l2 & Hl1 & Hl2 & Hst & Hloop).
    rewrite Hinit in Hst. simpl in Hst.
    apply initialize_loop_success in Hloop as (Hall & _).
    exists l2. split; [|split].
    - rewrite (remove_first_Permutation _ _ _ Hl1).
      now rewrite (remove_first_Permutation _ _ _ Hl2).
    - apply Forall_forall. exact Hall.
    - simpl. rewrite Hst. simpl. rewrite Hlists2.
      destruct agents_needed as [r|]; subst ref.
      + split.
        * rewrite Hlists2 in Hvalid. apply lookup_lt_Some in Hvalid.
          apply list_lookup_insert_eq. now rewrite length_insert.
        * intros r' Hne. now rewrite !list_lookup_insert_ne by congruence.
      + rewrite insert_snoc. apply insert_snoc. }
  do 6 (split; [assumption|]).
  split.
  { intros k Hk. unfold known_roles in Hk. rewrite !not_elem_of_cons in Hk.
    destruct Hk as (K1 & K2 & K3 & K4 & _). rewrite Hreg.
    repeat (case_decide; [congruence|]). reflexivity. }
  simpl. rewrite Hself3, Hself2, Henv3, Htmp3, Hlog3. simpl.
  repeat split; assumption.
Qed.

(** [create] once the key is there and the construction goes through:
    the registration step finds the navigator and the planner, or raises. *)
Lemma create_outcome agents_needed n p key needed rest :
  load_dotenv (environ p) !! "OPENAI_API_KEY" = Some key ->
  match agents_needed with
  | Some r => lists p !! r
  | None => Some default_agents_needed
  end = Some needed ->
  needed ≡ₚ "user_proxy" :: "browser_nav_executor" :: rest ->
  Forall built_in_loop rest ->
  exists m st4,
    agents_map (self st4) = Some m
    /\ config_list (self st4)
       = Some [ {[ "model" := "gpt-4-turbo-preview"; "api_key" := key ]} ]
    /\ m !! "user_proxy" = Some (new_agent (user_proxy_descriptor U n))
    /\ m !! "browser_nav_executor"
       = Some (new_agent (browser_nav_executor_descriptor E n))
    /\ ("browser_nav_agent" ∈ needed -> "planner_agent" ∈ needed ->
        returned (create U E B P load_dotenv agents_needed n p).1 = true)
    /\ ("browser_nav_agent" ∉ needed ->
        create U E B P load_dotenv agents_needed n p
        = (Raise (KeyError "browser_nav_agent"), st4))
    /\ ("browser_nav_agent" ∈ needed -> "planner_agent" ∉ needed ->
        create U E B P load_dotenv agents_needed n p
        = (Raise (KeyError "planner_agent"), st4)).
Proof.
  intros Hkey Hreq Hperm Hall.
  destruct (create_with_key U E B P load_dotenv agents_needed n p key Hkey)
    as (ref & st2 & Heq & Href & Hself2 & Hlists2 & _).
  pose proof (create_requested agents_needed p ref st2 Href Hlists2) as Hvalid.
  rewrite Hreq in Hvalid.
  pose proof (initialize_agents_returns U E B P ref st2 needed rest Hvalid Hperm Hall)
    as Hret.
  destruct (initialize_agents_frame ref st2) as (Hself3 & _).
  destruct (__initialize_agents U E B P ref st2) as [[m|e] st3] eqn:Hinit;
    [|discriminate].
  simpl in Hself3.
  assert (Hrun : (__initialize_agents U E B P ref st2).1 = Return m) by now rewrite Hinit.
  pose proof (initialize_agents_registry U E B P ref st2 needed m Hvalid Hrun) as Hreg.
  rewrite Hself2 in Hreg. simpl in Hreg.
  pose proof (Hreg "user_proxy") as Hup. simpl in Hup.
  pose proof (Hreg "browser_nav_executor") as Hex. simpl in Hex.
  pose proof (Hreg "browser_nav_agent") as Hnav. simpl in Hnav.
  pose proof (Hreg "planner_agent") as Hpl. simpl in Hpl.
  exists m, (set_self (set_agents_map (Some m) (self st3)) st3).
  split; [reflexivity|].
  split; [simpl; now rewrite Hself3, Hself2|].
  split; [exact Hup|]. split; [exact Hex|].
  split; [|split]; intros; rewrite Heq; unfold bind at 1; rewrite Hinit;
    unfold bind at 1, modify at 1; unfold bind at 1;
    rewrite (create_nested_chats_run _ m) by reflexivity;
    rewrite Hup, Hex, Hnav, Hpl;
    rewrite ?bool_decide_eq_true_2 by assumption;
    rewrite ?bool_decide_eq_false_2 by assumption;
    reflexivity.
Qed.

End CreateResult.

(** X8. [create] returns a wrapper exactly when [OPENAI_API_KEY] is in the
    environment once the [.env] file is loaded and the requested list (the
    default one when none is given) holds, in any order, one [user_proxy],
    one [browser_nav_executor] and otherwise only [browser_nav_agent] and
    [planner_agent] entries, at least one of each: all four roles have to
    be requested. *)
Theorem create_returns_iff
    (U E : string) (B : option (list config) -> agent_obj -> agent_obj)
    (P : option (list config) -> agent_obj)
    (load_dotenv : gmap string string -> gmap string string)
    (agents_needed : option nat) (n : Z) (p : process) :
  returned (create U E B P load_dotenv agents_needed n p).1 = true
  <-> (exists key, load_dotenv (environ p) !! "OPENAI_API_KEY" = Some key)
      /\ exists needed rest,
           match agents_needed with
           | Some r => lists p !! r
           | None => Some default_agents_needed
           end = Some needed
           /\ needed ≡ₚ "user_proxy" :: "browser_nav_executor" :: rest
           /\ Forall built_in_loop rest
           /\ "browser_nav_agent" ∈ rest
           /\ "planner_agent" ∈ rest.
Proof.
  split.
  - destruct (create U E B P load_dotenv agents_needed n p) as [[w|e] st] eqn:Hc;
      [intros _ | discriminate].
    destruct (create_returned U E B P load_dotenv agents_needed n p w st Hc)
      as (key & needed & m & Hkey & Hreq & (rest & Hperm & Hall & _)
          & _ & _ & Hnav & _ & Hpl & _).
    split; [eauto|]. exists needed, rest.
    apply (elem_of_Permutation_proper _ _ _ Hperm) in Hnav, Hpl.
    rewrite !elem_of_cons in Hnav, Hpl.
    repeat split; try assumption.
    + destruct Hnav as [?|[?|?]]; [discriminate..|assumption].
    + destruct Hpl as [?|[?|?]]; [discriminate..|assumption].
  - intros ((key & Hkey) & needed & rest & Hreq & Hperm & Hall & Hnav & Hpl).
    destruct (create_outcome U E B P load_dotenv agents_needed n p key needed rest
                Hkey Hreq Hperm Hall) as (m & st4 & _ & _ & _ & _ & Hret & _).
    apply Hret; apply (elem_of_Permutation_proper _ _ _ Hperm);
      rewrite !elem_of_cons; auto.
Qed.

Lemma create_returns_iff_witness :
  returned (create "You are the user." "You execute." Sample.navigator Sample.planner
              Sample.dotenv None 50 (Sample.process_with [["user_proxy"]])).1 = true.
Proof.
  apply (create_returns_iff
           "You are the user." "You execute." Sample.navigator Sample.planner
           Sample.dotenv None 50 (Sample.process_with [["user_proxy"]])).
  split.
  - exists "sk-test". reflexivity.
  - exists default_agents_needed, ["planner_agent"; "browser_nav_agent"].
    split; [reflexivity|]. split; [reflexivity|]. split.
    + constructor; [right; reflexivity|]. constructor; [left; reflexivity|]. constructor.
    + split; apply (bool_decide_unpack _); vm_compute; exact I.
Defined.

(** X9. The wrapper that [create] returns is the same for every list it
    accepts: it carries the round limit, the one-entry backend
    configuration with the API key of the environment, and a registry of
    exactly the four roles, in which the navigator holds the executor, the
    navigator and the planner are built from that configuration, and the
    initiator alone carries the nested chat. *)
Theorem create_result
    (U E : string) (B : option (list config) -> agent_obj -> agent_obj)
    (P : option (list config) -> agent_obj)
    (load_dotenv : gmap string string -> gmap string string)
    (agents_needed : option nat) (n : Z) (p : process) (w : AutogenWrapper) :
  (create U E B P load_dotenv agents_needed n p).1 = Return w ->
  exists key m,
    load_dotenv (environ p) !! "OPENAI_API_KEY" = Some key
    /\ number_of_rounds w = n
    /\ config_list w = Some [ {[ "model" := "gpt-4-turbo-preview"; "api_key" := key ]} ]
    /\ agents_map w = Some m
    /\ (forall k, is_Some (m !! k) <-> k ∈ known_roles)
    /\ m !! "user_proxy"
       = Some (register_nested_chats (new_agent (user_proxy_descriptor U n))
                 [ {| sender := browser_nav_executor_descriptor E n;
                      recipient :=
                        descriptor
                          (B (Some [ {[ "model" := "gpt-4-turbo-preview";
                                        "api_key" := key ]} ])
                             (new_agent (browser_nav_executor_descriptor E n)));
                      nested_message := nested_chat_message;
                      max_turns := 2;
                      summary_method := "last_msg" |} ]
                 (descriptor
                    (P (Some [ {[ "model" := "gpt-4-turbo-preview";
                                  "api_key" := key ]} ]))))
    /\ m !! "browser_nav_executor"
       = Some (new_agent (browser_nav_executor_descriptor E n))
    /\ m !! "browser_nav_agent"
       = Some (B (Some [ {[ "model" := "gpt-4-turbo-preview"; "api_key" := key ]} ])
                 (new_agent (browser_nav_executor_descriptor E n)))
    /\ m !! "planner_agent"
       = Some (P (Some [ {[ "model" := "gpt-4-turbo-preview"; "api_key" := key ]} ])).
Proof.
  intros Hcreate.
  destruct (create U E B P load_dotenv agents_needed n p) as [r st] eqn:Hc.
  simpl in Hcreate. subst r.
  destruct (create_returned U E B P load_dotenv agents_needed n p w st Hc)
    as (key & needed & m & Hkey & _ & _ & Hup & Hex & _ & Hnav & _ & Hpl
        & Hother & Hw & _).
  eexists key, _. rewrite Hw. simpl.
  split; [exact Hkey|]. do 3 (split; [reflexivity|]).
  split; [|split; [apply lookup_insert_eq|]].
  - intros k. split.
    + intros Hk. destruct (decide (k ∈ known_roles)) as [|Hout]; [assumption|].
      rewrite lookup_insert_ne, (Hother k Hout) in Hk.
      * now destruct Hk.
      * intros <-. apply Hout. apply elem_of_cons. now left.
    + unfold known_roles. rewrite !elem_of_cons, elem_of_nil.
      intros [->|[->|[->|[->|[]]]]].
      * rewrite lookup_insert_eq. eauto.
      * rewrite lookup_insert_ne, Hex by discriminate. eauto.
      * rewrite lookup_insert_ne, Hpl by discriminate. eauto.
      * rewrite lookup_insert_ne, Hnav by discriminate. eauto.
  - rewrite !lookup_insert_ne by discriminate. auto.
Qed.

Lemma create_result_witness :
  exists key m,
    Sample.dotenv (environ (Sample.process_with [])) !! "OPENAI_API_KEY" = Some key
    /\ number_of_rounds Sample.wrapper = 50%Z
    /\ config_list Sample.wrapper
       = Some [ {[ "model" := "gpt-4-turbo-preview"; "api_key" := key ]} ]
    /\ agents_map Sample.wrapper = Some m
    /\ (forall k, is_Some (m !! k) <-> k ∈ known_roles)
    /\ m !! "user_proxy"
       = Some (register_nested_chats
                 (new_agent (user_proxy_descriptor "You are the user." 50))
                 [ {| sender := browser_nav_executor_descriptor "You execute." 50;
                      recipient :=
                        descriptor
                          (Sample.navigator
                             (Some [ {[ "model" := "gpt-4-turbo-preview";
                                        "api_key" := key ]} ])
                             (new_agent (browser_nav_executor_descriptor "You execute." 50)));
                      nested_message := nested_chat_message;
                      max_turns := 2;
                      summary_method := "last_msg" |} ]
                 (descriptor
                    (Sample.planner
                       (Some [ {[ "model" := "gpt-4-turbo-preview";
                                  "api_key" := key ]} ]))))
    /\ m !! "browser_nav_executor"
       = Some (new_agent (browser_nav_executor_descriptor "You execute." 50))
    /\ m !! "browser_nav_agent"
       = Some (Sample.navigator
                 (Some [ {[ "model" := "gpt-4-turbo-preview"; "api_key" := key ]} ])
                 (new_agent (browser_nav_executor_descriptor "You execute." 50)))
    /\ m !! "planner_agent"
       = Some (Sample.planner
                 (Some [ {[ "model" := "gpt-4-turbo-preview"; "api_key" := key ]} ])).
Proof.
  apply (create_result
           "You are the user." "You execute." Sample.navigator Sample.planner
           Sample.dotenv None 50 (Sample.process_with []) Sample.wrapper).
  vm_compute. reflexivity.
Defined.

(** X10. A list that [__initialize_agents] accepts but that lacks
    [browser_nav_agent] or [planner_agent] makes [create] raise [KeyError]
    for the first of the two that is missing, at the registration of the
    nested chat.  By then the instance holds a registry, with the initiator
    and the executor in it, and the initiator carries no nested chat. *)
Theorem create_partial_registry
    (U E : string) (B : option (list config) -> agent_obj -> agent_obj)
    (P : option (list config) -> agent_obj)
    (load_dotenv : gmap string string -> gmap string string)
    (ref : nat) (n : Z) (p : process) (key : string) (needed rest : list string) :
  load_dotenv (environ p) !! "OPENAI_API_KEY" = Some key ->
  lists p !! ref = Some needed ->
  needed ≡ₚ "user_proxy" :: "browser_nav_executor" :: rest ->
  Forall built_in_loop rest ->
  "browser_nav_agent" ∉ rest \/ "planner_agent" ∉ rest ->
  exists m st,
    create U E B P load_dotenv (Some ref) n p
    = (Raise (KeyError (if bool_decide ("browser_nav_agent" ∈ rest)
                        then "planner_agent" else "browser_nav_agent")), st)
    /\ agents_map (self st) = Some m
    /\ m !! "user_proxy" = Some (new_agent (user_proxy_descriptor U n))
    /\ m !! "browser_nav_executor"
       = Some (new_agent (browser_nav_executor_descriptor E n)).
Proof.
  intros Hkey Href Hperm Hall Hmissing.
  destruct (create_outcome U E B P load_dotenv (Some ref) n p key needed rest
              Hkey Href Hperm Hall)
    as (m & st4 & Hmap & _ & Hup & Hex & _ & Hno_nav & Hno_pl).
  assert (Hin : forall a, a <> "user_proxy" -> a <> "browser_nav_executor" ->
                          (a ∈ needed <-> a ∈ rest)).
  { intros a H1 H2. rewrite (elem_of_Permutation_proper a _ _ Hperm).
    rewrite !elem_of_cons. tauto. }
  exists m, st4. split; [|auto].
  case_bool_decide as Hnav.
  - destruct Hmissing as [Hmiss|Hmiss]; [contradiction|].
    apply Hno_pl; rewrite Hin by discriminate; assumption.
  - apply Hno_nav. rewrite Hin by discriminate. assumption.
Qed.

Lemma create_partial_registry_witness :
  exists m st,
    create "You are the user." "You execute." Sample.navigator Sample.planner
      Sample.dotenv (Some 0) 50
      (Sample.process_with [["user_proxy"; "browser_nav_executor"; "browser_nav_agent"]])
    = (Raise (KeyError (if bool_decide ("browser_nav_agent" ∈ ["browser_nav_agent"])
                        then "planner_agent" else "browser_nav_agent")), st)
    /\ agents_map (self st) = Some m
    /\ m !! "user_proxy"
       = Some (new_agent (user_proxy_descriptor "You are the user." 50))
    /\ m !! "browser_nav_executor"
       = Some (new_agent (browser_nav_executor_descriptor "You execute." 50)).
Proof.
  apply (create_partial_registry
           "You are the user." "You execute." Sample.navigator Sample.planner
           Sample.dotenv 0 50
           (Sample.process_with [["user_proxy"; "browser_nav_executor"; "browser_nav_agent"]])
           "sk-test" ["user_proxy"; "browser_nav_executor"; "browser_nav_agent"]
           ["browser_nav_agent"]).
  - reflexivity.
  - reflexivity.
  - reflexivity.
  - constructor; [left; reflexivity | constructor].
  - right. apply (bool_decide_unpack _). vm_compute. exact I.
Defined.

(** X11. What a successful [create] leaves behind, besides the wrapper:
    [AUTOGEN_USE_DOCKER] set to [False] in the environment, one more
    temporary file, which holds the API key in clear and is not removed,
    and a shorter list.  A list passed by the caller has lost [user_proxy]
    and [browser_nav_executor] and keeps navigator and planner entries
    only, the caller's other lists being untouched; without a list, the
    lists of the caller are all untouched. *)
Theorem create_effects
    (U E : string) (B : option (list config) -> agent_obj -> agent_obj)
    (P : option (list config) -> agent_obj)
    (load_dotenv : gmap string string -> gmap string string)
    (agents_needed : option nat) (n : Z) (p : process) (w : AutogenWrapper) (st : state) :
  create U E B P load_dotenv agents_needed n p = (Return w, st) ->
  exists key rest,
    load_dotenv (environ p) !! "OPENAI_API_KEY" = Some key
    /\ self st = w
    /\ environ (proc st) = <["AUTOGEN_USE_DOCKER" := "False"]> (load_dotenv (environ p))
    /\ temp_files (proc st)
       = temp_files p ++ [ [ {[ "model" := "gpt-4-turbo-preview"; "api_key" := key ]} ] ]
    /\ Forall built_in_loop rest
    /\ match agents_needed with
       | Some r =>
           lists (proc st) !! r = Some rest
           /\ forall r', r' <> r -> lists (proc st) !! r' = lists p !! r'
       | None => lists (proc st) = lists p ++ [rest]
       end.
Proof.
  intros Hc.
  destruct (create_returned U E B P load_dotenv agents_needed n p w st Hc)
    as (key & needed & m & Hkey & _ & (rest & _ & Hall & Hlists)
        & _ & _ & _ & _ & _ & _ & _ & _ & Hself & Henv & Htmp & _).
  exists key, rest. repeat (split; [assumption|]). assumption.
Qed.

Lemma create_effects_witness :
  exists key rest,
    Sample.dotenv (environ (Sample.process_with [["planner_agent"]])) !! "OPENAI_API_KEY"
    = Some key
    /\ self (Sample.create_with None (Sample.process_with [["planner_agent"]])).2
       = Sample.wrapper
    /\ environ (proc (Sample.create_with None (Sample.process_with [["planner_agent"]])).2)
       = <["AUTOGEN_USE_DOCKER" := "False"]>
           (Sample.dotenv (environ (Sample.process_with [["planner_agent"]])))
    /\ temp_files (proc (Sample.create_with None (Sample.process_with [["planner_agent"]])).2)
       = temp_files (Sample.process_with [["planner_agent"]])
           ++ [ [ {[ "model" := "gpt-4-turbo-preview"; "api_key" := key ]} ] ]
    /\ Forall built_in_loop rest
    /\ lists (proc (Sample.create_with None (Sample.process_with [["planner_agent"]])).2)
       = lists (Sample.process_with [["planner_agent"]]) ++ [rest].
Proof.
  apply (create_effects
           "You are the user." "You execute." Sample.navigator Sample.planner
           Sample.dotenv None 50 (Sample.process_with [["planner_agent"]]) Sample.wrapper
           (Sample.create_with None (Sample.process_with [["planner_agent"]])).2).
  vm_compute. reflexivity.
Defined.

(** X12. A list object serves one successful [create] at most: after a
    [create] that returned, any further [create] from the same list, in
    the state the first one left, raises, for want of [user_proxy] when
    the API key is still in the environment. *)
Theorem create_list_single_use
    (U E : string) (B : option (list config) -> agent_obj -> agent_obj)
    (P : option (list config) -> agent_obj)
    (load_dotenv : gmap string string -> gmap string string)
    (ref : nat) (n n' : Z) (p : process) (w : AutogenWrapper) (st : state) :
  create U E B P load_dotenv (Some ref) n p = (Return w, st) ->
  (create U E B P load_dotenv (Some ref) n' (proc st)).1
  = match load_dotenv (environ (proc st)) !! "OPENAI_API_KEY" with
    | Some _ => Raise MissingRequiredRole
    | None => Raise (KeyError "OPENAI_API_KEY")
    end.
Proof.
  intros Hc.
  destruct (create_returned U E B P load_dotenv (Some ref) n p w st Hc)
    as (_ & _ & _ & _ & _ & (rest & _ & Hall & Hat & _) & _).
  destruct (load_dotenv (environ (proc st)) !! "OPENAI_API_KEY") as [key'|] eqn:Hkey'.
  - destruct (create_with_key U E B P load_dotenv (Some ref) n' (proc st) key' Hkey')
      as (ref' & st2 & Heq & -> & _ & Hlists & _).
    rewrite Heq. unfold bind at 1.
    rewrite <- Hlists in Hat.
    rewrite (initialize_agents_run _ _ _ _ _ _ _ Hat).
    rewrite bool_decide_eq_false_2; [reflexivity|].
    intros Hup. rewrite Forall_forall in Hall.
    destruct (Hall _ Hup); discriminate.
  - destruct (create_raises_without_key U E B P load_dotenv (Some ref) n' (proc st) Hkey')
      as [st' ->].
    reflexivity.
Qed.

Lemma create_list_single_use_witness :
  (create "You are the user." "You execute." Sample.navigator Sample.planner
     Sample.dotenv (Some 0) 10
     (proc (Sample.create_with (Some 0) (Sample.process_with [default_agents_needed])).2)).1
  = match Sample.dotenv
            (environ (proc (Sample.create_with (Some 0)
                              (Sample.process_with [default_agents_needed])).2))
            !! "OPENAI_API_KEY" with
    | Some _ => Raise MissingRequiredRole
    | None => Raise (KeyError "OPENAI_API_KEY")
    end.
Proof.
  apply (create_list_single_use
           "You are the user." "You execute." Sample.navigator Sample.planner
           Sample.dotenv 0 50 10 (Sample.process_with [default_agents_needed])
           Sample.wrapper
           (Sample.create_with (Some 0) (Sample.process_with [default_agents_needed])).2).
  vm_compute. reflexivity.
Defined.

(** X13. On a wrapper that [create] returned, [process_command] never
    fails for want of a registry or of a role: once the prompt is
    rendered, the chat is started by the initiator that carries the nested
    chat, with the planner built from the backend configuration and with
    that prompt, and its outcome alone decides the result, a
    [BadRequestError] being swallowed and any other exception raised. *)
Theorem process_command_after_create
    (U E T : string) (B : option (list config) -> agent_obj -> agent_obj)
    (P : option (list config) -> agent_obj)
    (load_dotenv : gmap string string -> gmap string string)
    (chat : agent_obj -> agent_obj -> string -> option exn)
    (agents_needed : option nat) (n : Z) (p : process) (w : AutogenWrapper)
    (command : string) (current_url : option string) (prompt : string) (st : state) :
  (create U E B P load_dotenv agents_needed n p).1 = Return w ->
  render_prompt T command current_url = Return prompt ->
  self st = w ->
  exists key initiator,
    load_dotenv (environ p) !! "OPENAI_API_KEY" = Some key
    /\ descriptor initiator = user_proxy_descriptor U n
    /\ delegation_links w
       = [ {| chat_queue :=
                [ {| sender := browser_nav_executor_descriptor E n;
                     recipient :=
                       descriptor
                         (B (Some [ {[ "model" := "gpt-4-turbo-preview";
                                       "api_key" := key ]} ])
                            (new_agent (browser_nav_executor_descriptor E n)));
                     nested_message := nested_chat_message;
                     max_turns := 2;
                     summary_method := "last_msg" |} ];
              trigger :=
                descriptor
                  (P (Some [ {[ "model" := "gpt-4-turbo-preview"; "api_key" := key ]} ])) |} ]
    /\ reply_func_list initiator = delegation_links w
    /\ (process_command T chat command current_url st).1
       = match chat initiator
                 (P (Some [ {[ "model" := "gpt-4-turbo-preview"; "api_key" := key ]} ]))
                 prompt with
         | None => Return tt
         | Some (BadRequestError _) => Return tt
         | Some e => Raise e
         end.
Proof.
  intros Hcreate Hprompt Hself.
  destruct (create U E B P load_dotenv agents_needed n p) as [r st0] eqn:Hc.
  simpl in Hcreate. subst r.
  destruct (create_returned U E B P load_dotenv agents_needed n p w st0 Hc)
    as (key & needed & m & Hkey & _ & _ & _ & _ & _ & _ & _ & Hpl & _ & Hw & _).
  match type of Hw with
  | _ = {| agents_map := Some (<[_ := ?i]> _) |} => exists key, i
  end.
  split; [exact Hkey|]. split; [reflexivity|].
  unfold delegation_links, process_command, bind, lift, try_except_BadRequestError.
  rewrite Hprompt. simpl. unfold gets. rewrite Hself, Hw. simpl.
  unfold getitem. rewrite lookup_insert_eq.
  rewrite lookup_insert_ne by discriminate. rewrite Hpl. simpl.
  do 2 (split; [reflexivity|]).
  destruct (chat _ _ prompt) as [[]|]; reflexivity.
Qed.

Lemma process_command_after_create_witness :
  exists key initiator,
    Sample.dotenv (environ (Sample.process_with [])) !! "OPENAI_API_KEY" = Some key
    /\ descriptor initiator = user_proxy_descriptor "You are the user." 50
    /\ delegation_links Sample.wrapper
       = [ {| chat_queue :=
                [ {| sender := browser_nav_executor_descriptor "You execute." 50;
                     recipient :=
                       descriptor
                         (Sample.navigator
                            (Some [ {[ "model" := "gpt-4-turbo-preview";
                                       "api_key" := key ]} ])
                            (new_agent (browser_nav_executor_descriptor "You execute." 50)));
                     nested_message := nested_chat_message;
                     max_turns := 2;
                     summary_method := "last_msg" |} ];
              trigger :=
                descriptor
                  (Sample.planner
                     (Some [ {[ "model" := "gpt-4-turbo-preview";
                                "api_key" := key ]} ])) |} ]
    /\ reply_func_list initiator = delegation_links Sample.wrapper
    /\ (process_command Sample.template
          (Sample.failing_backend (RateLimitError "429")) "click login" None
          {| self := Sample.wrapper; proc := Sample.process_with [] |}).1
       = match Sample.failing_backend (RateLimitError "429") initiator
                 (Sample.planner
                    (Some [ {[ "model" := "gpt-4-turbo-preview"; "api_key" := key ]} ]))
                 ("Execute the user task " +:+ dquote +:+ "click login" +:+ dquote +:+ " ")
         with
         | None => Return tt
         | Some (BadRequestError _) => Return tt
         | Some e => Raise e
         end.
Proof.
  apply (process_command_after_create
           "You are the user." "You execute." Sample.template
           Sample.navigator Sample.planner Sample.dotenv
           (Sample.failing_backend (RateLimitError "429")) None 50
           (Sample.process_with []) Sample.wrapper "click login" None
           ("Execute the user task " +:+ dquote +:+ "click login" +:+ dquote +:+ " ")
           {| self := Sample.wrapper; proc := Sample.process_with [] |}).
  - vm_compute. reflexivity.
  - reflexivity.
  - reflexivity.
Defined.

(** X14. What [process_command] logs.  A prompt that cannot be rendered
    makes it raise the error of [substitute] at once: nothing is logged
    and the registry is not looked at.  Otherwise the prompt is logged
    first, registry or not, and one error entry follows exactly when the
    registry holds the initiator and the planner and the chat between
    them, on that prompt, raised [BadRequestError]: the entry carries the
    command and the text of that error.  In every other case, the normal
    end of the chat and every error that reaches the caller among them,
    the prompt entry is the only one written: unless the command returns
    normally, nothing but the prompt is logged. *)
Theorem process_command_log
    (T : string) (chat : agent_obj -> agent_obj -> string -> option exn)
    (command : string) (current_url : option string) (st : state) :
  match render_prompt T command current_url with
  | Raise e => process_command T chat command current_url st = (Raise e, st)
  | Return prompt =>
      log (proc (process_command T chat command current_url st).2)
      = log (proc st)
          ++ ("INFO", "Prompt for command: " +:+ prompt)
          :: match agents_map (self st) with
             | Some m =>
                 match m !! "user_proxy", m !! "planner_agent" with
                 | Some initiator, Some planner =>
                     match chat initiator planner prompt with
                     | Some (BadRequestError bre) =>
                         [("ERROR", "Unable to process command: " +:+ dquote
                                      +:+ command +:+ dquote +:+ ". " +:+ bre)]
                     | _ => []
                     end
                 | _, _ => []
                 end
             | None => []
             end
      /\ ((process_command T chat command current_url st).1 = Return tt
          \/ log (proc (process_command T chat command current_url st).2)
             = log (proc st) ++ [("INFO", "Prompt for command: " +:+ prompt)])
  end.
Proof.
  unfold process_command, bind, lift, try_except_BadRequestError.
  destruct (render_prompt T command current_url) as [prompt|e]; [|reflexivity].
  simpl. unfold gets.
  destruct (agents_map (self st)) as [m|]; simpl.
  2:{ split; [reflexivity | now right]. }
  unfold getitem.
  destruct (m !! "user_proxy") as [user_proxy|]; simpl.
  2:{ split; [reflexivity | now right]. }
  destruct (m !! "planner_agent") as [planner|]; simpl.
  2:{ split; [reflexivity | now right]. }
  destruct (chat user_proxy planner prompt) as [[]|]; simpl;
    try (split; [reflexivity | now right]).
  split; [now rewrite <- app_assoc | now left].
Qed.
